(** * Score/MDS decision engine: exit bands, entry gates, confirmation runner

    Shallow embedding of [backend/score_engine.py]:
    - the two pure decision functions [decide_exit_mds] and [decide_entry_mds];
    - the stateful [ScoreMdsRunner], whose methods run in a small
      state-and-exception monad over the runner's two fields.

    Python floats are modelled by their values: a finite float is an exact
    rational, and the two infinities and NaN are separate constructors.  The
    engine only compares floats and takes absolute values, which is exact. *)

From Stdlib Require Import Bool ZArith QArith Qabs String List Lia Lqa.
Import ListNotations.

Local Open Scope string_scope.
Local Open Scope Z_scope.

(** ** Python floats: comparisons, [abs], truthiness *)

Inductive pyfloat : Type :=
| Fin (q : Q)
| PInf
| NInf
| NaN.

Definition Qlt_bool (x y : Q) : bool := negb (Qle_bool y x).

(** [x <= y] ; every comparison with NaN is false. *)
Definition fle (x y : pyfloat) : bool :=
  match x, y with
  | NaN, _ | _, NaN => false
  | NInf, _ => true
  | _, PInf => true
  | Fin a, Fin b => Qle_bool a b
  | _, _ => false
  end.

(** [x < y] *)
Definition flt (x y : pyfloat) : bool :=
  match x, y with
  | NaN, _ | _, NaN => false
  | NInf, NInf => false
  | PInf, _ => false
  | NInf, _ => true
  | Fin a, Fin b => Qlt_bool a b
  | Fin _, PInf => true
  | Fin _, NInf => false
  end.

Definition fge (x y : pyfloat) : bool := fle y x.
Definition fgt (x y : pyfloat) : bool := flt y x.

(** [abs(x)] *)
Definition fabs (x : pyfloat) : pyfloat :=
  match x with
  | Fin q => Fin (Qabs q)
  | PInf | NInf => PInf
  | NaN => NaN
  end.

Definition fz (n : Z) : pyfloat := Fin (inject_Z n).

Declare Scope pyfloat_scope.
Delimit Scope pyfloat_scope with F.
Notation "x <=? y" := (fle x y) : pyfloat_scope.
Notation "x <? y" := (flt x y) : pyfloat_scope.
Notation "x >=? y" := (fge x y) : pyfloat_scope.
Notation "x >? y" := (fgt x y) : pyfloat_scope.

(** ** Truthiness and the [or] operator

    [x or d] evaluates to [x] when [x] is truthy and to [d] otherwise.  The
    left operand may be [None], which is falsy. *)

Class Truthy (A : Type) := truthy : A -> bool.

#[export] Instance Truthy_float : Truthy pyfloat :=
  fun x => match x with
           | Fin q => negb (Qeq_bool q 0)
           | _ => true
           end.

#[export] Instance Truthy_str : Truthy string :=
  fun s => negb (String.eqb s "").

#[export] Instance Truthy_int : Truthy Z :=
  fun n => negb (Z.eqb n 0).

Definition py_or {A : Type} `{Truthy A} (x : option A) (d : A) : option A :=
  match x with
  | Some v => if truthy v then Some v else Some d
  | None => Some d
  end.

(** ** Exceptions and the conversions [float()], [int()], [str()], [bool()] *)

Inductive exn : Type := TypeError.

Inductive outcome (A : Type) : Type :=
| Returned (a : A)
| Raised (e : exn).
Arguments Returned {A} a.
Arguments Raised {A} e.

(** [float(None)] raises [TypeError]. *)
Definition float_ (x : option pyfloat) : outcome pyfloat :=
  match x with
  | Some v => Returned v
  | None => Raised TypeError
  end.

(** [int(None)] raises [TypeError]. *)
Definition int_ (x : option Z) : outcome Z :=
  match x with
  | Some v => Returned v
  | None => Raised TypeError
  end.

(** [str(None)] is the string ["None"]. *)
Definition str_ (x : option string) : string :=
  match x with
  | Some s => s
  | None => "None"
  end.

Definition bool_ (b : bool) : bool := b.

(** ** Decision records *)

Module ExitDecision.
Record t : Type := mk { should_exit : bool; reason : string }.
End ExitDecision.

Module EntryDecision.
Record t : Type :=
  mk { should_enter : bool; option_type : string; reason : string }.
End EntryDecision.

Module StrategyExitDecision.
Record t : Type := mk { should_exit : bool; reason : string }.
End StrategyExitDecision.

Module StrategyEntryDecision.
Record t : Type :=
  mk { should_enter : bool;
       option_type : string;
       reason : string;
       confirm_count : Z;
       confirm_needed : Z }.
End StrategyEntryDecision.

(** ** The pure decision functions *)

Section Pure.
Local Open Scope pyfloat_scope.

(** [decide_exit_mds]: the two locals [should_exit] and [reason] start as
    [False] and [""] and are assigned in at most one branch. *)
Definition decide_exit_mds (position_type : string)
           (score slope slow_mom : pyfloat) : ExitDecision.t :=
  let neutral := fabs score <=? fz 6 in
  let unset := (false, "") in
  let '(should_exit, reason) :=
    if String.eqb position_type "CE" then
      if score <=? fz (-10) then
        if slow_mom <=? fz (-1)
        then (true, "MDS Reversal (slow confirm)") else unset
      else if neutral then
        if fabs slow_mom <=? fz 1
        then (true, "MDS Neutral (slow confirm)") else unset
      else if (slope <=? fz (-2)) && (score <? fz 12) then
        if slow_mom <=? fz 0
        then (true, "MDS Momentum Loss (slow confirm)") else unset
      else unset
    else if String.eqb position_type "PE" then
      if score >=? fz 10 then
        if slow_mom >=? fz 1
        then (true, "MDS Reversal (slow confirm)") else unset
      else if neutral then
        if fabs slow_mom <=? fz 1
        then (true, "MDS Neutral (slow confirm)") else unset
      else if (slope >=? fz 2) && (score >? fz (-12)) then
        if slow_mom >=? fz 0
        then (true, "MDS Momentum Loss (slow confirm)") else unset
      else unset
    else unset
  in
  ExitDecision.mk should_exit reason.

Definition decide_entry_mds (ready is_choppy : bool) (direction : string)
           (score slope : pyfloat) (confirm_count confirm_needed : Z)
  : EntryDecision.t :=
  if negb ready then EntryDecision.mk false "" "mds_not_ready"
  else if is_choppy then EntryDecision.mk false "" "mds_choppy"
  else if String.eqb direction "NONE" then
    EntryDecision.mk false "" "neutral_band"
  else if fabs score <? fz 10 then
    EntryDecision.mk false "" "score_too_low"
  else if fabs slope <? fz 1 then
    EntryDecision.mk false "" "slope_too_low"
  else if (confirm_count <? confirm_needed)%Z then
    EntryDecision.mk false "" "arming"
  else
    let option_type := if String.eqb direction "CE" then "CE" else "PE" in
    EntryDecision.mk true option_type "".
End Pure.

(** ** The runner: state, and a state-and-exception monad for its methods *)

Record Runner : Type :=
  mkRunner { _last_direction : option string; _confirm_count : Z }.

(** [ScoreMdsRunner()] *)
Definition init : Runner := mkRunner None 0.

(** A method body maps the runner's fields before the call to an outcome and
    the fields after it; an assignment made before an exception stays. *)
Definition M (A : Type) : Type := Runner -> outcome A * Runner.

Definition ret {A : Type} (a : A) : M A := fun r => (Returned a, r).

Definition bind {A B : Type} (m : M A) (k : A -> M B) : M B :=
  fun r =>
    match m r with
    | (Returned a, r') => k a r'
    | (Raised e, r') => (Raised e, r')
    end.

Definition lift {A : Type} (o : outcome A) : M A := fun r => (o, r).

Definition get_last_direction : M (option string) :=
  fun r => (Returned (_last_direction r), r).
Definition get_confirm_count : M Z :=
  fun r => (Returned (_confirm_count r), r).
Definition set_last_direction (d : option string) : M unit :=
  fun r => (Returned tt, mkRunner d (_confirm_count r)).
Definition set_confirm_count (n : Z) : M unit :=
  fun r => (Returned tt, mkRunner (_last_direction r) n).

Declare Scope runner_scope.
Delimit Scope runner_scope with runner.
Notation "x <- m ;; k" := (bind m (fun x => k))
  (at level 100, m at next level, right associativity) : runner_scope.
Notation "m ;; k" := (bind m (fun _ => k))
  (at level 100, right associativity) : runner_scope.

(** Equality of an optional string (a field) with a string, as [==] does:
    [None == "CE"] is [False]. *)
Definition opt_str_eqb (o : option string) (s : string) : bool :=
  match o with
  | Some t => String.eqb t s
  | None => false
  end.

Module ScoreMdsRunner.
Local Open Scope runner_scope.

Definition reset : M unit :=
  set_last_direction None ;;
  set_confirm_count 0.

Definition on_entry_attempted : M unit :=
  set_confirm_count 0.

Definition decide_exit (position_type : option string)
           (score slope slow_mom : option pyfloat)
  : M StrategyExitDecision.t :=
  let pt := str_ (py_or position_type "") in
  sc <- lift (float_ (py_or score (fz 0))) ;;
  sl <- lift (float_ (py_or slope (fz 0))) ;;
  sm <- lift (float_ (py_or slow_mom (fz 0))) ;;
  let d := decide_exit_mds pt sc sl sm in
  ret (StrategyExitDecision.mk
         (bool_ (ExitDecision.should_exit d))
         (str_ (py_or (Some (ExitDecision.reason d)) ""))).

Definition decide_entry (ready is_choppy : bool) (direction : option string)
           (score slope : option pyfloat) (confirm_needed : Z)
  : M StrategyEntryDecision.t :=
  let direction := str_ (py_or direction "NONE") in
  if negb ready then
    ret (StrategyEntryDecision.mk false "" "mds_not_ready" 0 0)
  else if is_choppy then
    ret (StrategyEntryDecision.mk false "" "mds_choppy" 0 0)
  else if String.eqb direction "NONE" then
    set_last_direction (Some direction) ;;
    set_confirm_count 0 ;;
    ret (StrategyEntryDecision.mk false "" "neutral_band" 0 confirm_needed)
  else
    sc <- lift (float_ (py_or score (fz 0))) ;;
    if flt (fabs sc) (fz 10) then
      set_last_direction (Some direction) ;;
      set_confirm_count 0 ;;
      ret (StrategyEntryDecision.mk false "" "score_too_low" 0 confirm_needed)
    else
      sl <- lift (float_ (py_or slope (fz 0))) ;;
      if flt (fabs sl) (fz 1) then
        set_last_direction (Some direction) ;;
        set_confirm_count 0 ;;
        ret (StrategyEntryDecision.mk false "" "slope_too_low" 0
               confirm_needed)
      else
        last <- get_last_direction ;;
        (if opt_str_eqb last direction then
           n <- get_confirm_count ;;
           set_confirm_count (n + 1)
         else
           set_last_direction (Some direction) ;;
           set_confirm_count 1) ;;
        sc' <- lift (float_ (py_or score (fz 0))) ;;
        sl' <- lift (float_ (py_or slope (fz 0))) ;;
        count <- get_confirm_count ;;
        needed <- lift (int_ (py_or (Some confirm_needed) 0)) ;;
        let d := decide_entry_mds (bool_ ready) (bool_ is_choppy) direction
                   sc' sl' count needed in
        count' <- get_confirm_count ;;
        needed' <- lift (int_ (py_or (Some confirm_needed) 0)) ;;
        ret (StrategyEntryDecision.mk
               (bool_ (EntryDecision.should_enter d))
               (str_ (py_or (Some (EntryDecision.option_type d)) ""))
               (str_ (py_or (Some (EntryDecision.reason d)) ""))
               count' needed').
End ScoreMdsRunner.

(** ** The contract in the specification's words

    The position side is an enumeration there; the code receives its name. *)

Inductive PositionType : Type := PosCE | PosPE.

Definition pt_str (side : PositionType) : string :=
  match side with
  | PosCE => "CE"
  | PosPE => "PE"
  end.

Inductive Rule : Type := Reversal | Neutral | MomentumLoss.

Definition rules : list Rule := [Reversal; Neutral; MomentumLoss].

Definition rule_reason (r : Rule) : string :=
  match r with
  | Reversal => "MDS Reversal (slow confirm)"
  | Neutral => "MDS Neutral (slow confirm)"
  | MomentumLoss => "MDS Momentum Loss (slow confirm)"
  end.

Section Bands.
Local Open Scope pyfloat_scope.

(** The part of a rule's condition that reads [score] and [slope]. *)
Definition score_cond (side : PositionType) (r : Rule)
           (score slope : pyfloat) : bool :=
  match r, side with
  | Reversal, PosCE => score <=? fz (-10)
  | Reversal, PosPE => score >=? fz 10
  | Neutral, _ => fabs score <=? fz 6
  | MomentumLoss, PosCE => (slope <=? fz (-2)) && (score <? fz 12)
  | MomentumLoss, PosPE => (slope >=? fz 2) && (score >? fz (-12))
  end.

(** The part of a rule's condition that reads [slow_mom]. *)
Definition slow_cond (side : PositionType) (r : Rule)
           (slow_mom : pyfloat) : bool :=
  match r, side with
  | Reversal, PosCE => slow_mom <=? fz (-1)
  | Reversal, PosPE => slow_mom >=? fz 1
  | Neutral, _ => fabs slow_mom <=? fz 1
  | MomentumLoss, PosCE => slow_mom <=? fz 0
  | MomentumLoss, PosPE => slow_mom >=? fz 0
  end.

(** A rule's full stated condition. *)
Definition rule_holds (side : PositionType) (r : Rule)
           (score slope slow_mom : pyfloat) : bool :=
  score_cond side r score slope && slow_cond side r slow_mom.
End Bands.

Definition no_exit : ExitDecision.t := ExitDecision.mk false "".
Definition exit_with (r : Rule) : ExitDecision.t :=
  ExitDecision.mk true (rule_reason r).

(** First match over the full conditions: exit with the reason of the first
    rule whose full condition holds. *)
Definition exit_first_match (side : PositionType)
           (score slope slow_mom : pyfloat) : ExitDecision.t :=
  match find (fun r => rule_holds side r score slope slow_mom) rules with
  | Some r => exit_with r
  | None => no_exit
  end.

(** Selection by score and slope, confirmation by slow momentum: the first
    rule whose score/slope condition holds is the only one tried. *)
Definition exit_selected (side : PositionType)
           (score slope slow_mom : pyfloat) : ExitDecision.t :=
  match find (fun r => score_cond side r score slope) rules with
  | Some r => if slow_cond side r slow_mom then exit_with r else no_exit
  | None => no_exit
  end.

(** An absent number is 0.0. *)
Definition coerce_num (x : option pyfloat) : pyfloat :=
  match x with
  | Some v => v
  | None => fz 0
  end.

(** An absent position_type is the empty string. *)
Definition coerce_str (x : option string) : string :=
  match x with
  | Some s => s
  | None => ""
  end.

(** [direction], normalized: absent or empty is ["NONE"]. *)
Definition normalize (direction : option string) : string :=
  match direction with
  | Some "" | None => "NONE"
  | Some s => s
  end.

(** Two floats with the same value: finite ones may differ in how the
    rational is written. *)
Definition feq (x y : pyfloat) : Prop :=
  match x, y with
  | Fin a, Fin b => a == b
  | PInf, PInf | NInf, NInf | NaN, NaN => True
  | _, _ => False
  end.

(** ** Vocabulary of the runner's contract *)

(** A qualifying observation passes the five gates before confirmation. *)
Definition qualifying (ready is_choppy : bool) (direction : option string)
           (score slope : option pyfloat) : Prop :=
  ready = true /\ is_choppy = false /\ normalize direction <> "NONE" /\
  fle (fz 10) (fabs (coerce_num score)) = true /\
  fle (fz 1) (fabs (coerce_num slope)) = true.

(** An entry-gate decision, carrying [confirm_count] and [confirm_needed]. *)
Definition carry (d : EntryDecision.t) (count needed : Z)
  : StrategyEntryDecision.t :=
  StrategyEntryDecision.mk (EntryDecision.should_enter d)
    (EntryDecision.option_type d) (EntryDecision.reason d) count needed.

(** The count after a qualifying observation of direction [dir]. *)
Definition next_count (r : Runner) (dir : string) : Z :=
  if opt_str_eqb (_last_direction r) dir then _confirm_count r + 1 else 1.

(** A disqualifying observation fails one of the five gates. *)
Definition disqualifying (ready is_choppy : bool) (direction : option string)
           (score slope : option pyfloat) : Prop :=
  ready = false \/ is_choppy = true \/ normalize direction = "NONE" \/
  flt (fabs (coerce_num score)) (fz 10) = true \/
  flt (fabs (coerce_num slope)) (fz 1) = true.

(** Armed for [dir]: enough same-direction confirmations are counted. *)
Definition armed (r : Runner) (dir : string) (needed : Z) : Prop :=
  _last_direction r = Some dir /\ 1 <= needed <= _confirm_count r.

(** Reason code of the first failing gate among direction, score, slope. *)
Definition reset_reason (dir : string) (score : pyfloat) : string :=
  if String.eqb dir "NONE" then "neutral_band"
  else if flt (fabs score) (fz 10) then "score_too_low"
  else "slope_too_low".

(** Consecutive [decide_entry] calls, one per closed candle, with the same
    direction and [confirm_needed]; each observation is a score and a slope. *)
Fixpoint decide_entries (direction : option string) (needed : Z)
         (obs : list (option pyfloat * option pyfloat))
  : M (list StrategyEntryDecision.t) :=
  match obs with
  | [] => ret []
  | (score, slope) :: rest =>
      bind (ScoreMdsRunner.decide_entry true false direction score slope needed)
        (fun d => bind (decide_entries direction needed rest)
                    (fun ds => ret (d :: ds)))
  end.

(** ** More of the engine: negation, call sequences, reachable states *)

(** [-x] *)
Definition fneg (x : pyfloat) : pyfloat :=
  match x with
  | Fin q => Fin (- q)
  | PInf => NInf
  | NInf => PInf
  | NaN => NaN
  end.

(** The keyword arguments of one [decide_entry] call. *)
Record EntryCall : Type :=
  mkCall { c_ready : bool;
           c_is_choppy : bool;
           c_direction : option string;
           c_score : option pyfloat;
           c_slope : option pyfloat;
           c_needed : Z }.

Definition call_entry (c : EntryCall) : M StrategyEntryDecision.t :=
  ScoreMdsRunner.decide_entry (c_ready c) (c_is_choppy c) (c_direction c)
    (c_score c) (c_slope c) (c_needed c).

(** Consecutive [decide_entry] calls with arbitrary arguments. *)
Fixpoint call_entries (cs : list EntryCall)
  : M (list StrategyEntryDecision.t) :=
  match cs with
  | [] => ret []
  | c :: rest =>
      bind (call_entry c)
        (fun d => bind (call_entries rest) (fun ds => ret (d :: ds)))
  end.

(** One use of the runner by its owner. *)
Inductive Op : Type :=
| OpReset
| OpEntryAttempted
| OpDecideExit (position_type : option string)
               (score slope slow_mom : option pyfloat)
| OpDecideEntry (c : EntryCall).

(** The runner's fields after one operation. *)
Definition run_op (o : Op) (r : Runner) : Runner :=
  match o with
  | OpReset => snd (ScoreMdsRunner.reset r)
  | OpEntryAttempted => snd (ScoreMdsRunner.on_entry_attempted r)
  | OpDecideExit pt sc sl sm => snd (ScoreMdsRunner.decide_exit pt sc sl sm r)
  | OpDecideEntry c => snd (call_entry c r)
  end.

Definition run_ops (os : list Op) (r : Runner) : Runner :=
  fold_left (fun acc o => run_op o acc) os r.

Definition runner_inv (r : Runner) : Prop :=
  0 <= _confirm_count r /\
  (_last_direction r = None -> _confirm_count r = 0) /\
  (_last_direction r = Some "NONE" -> _confirm_count r = 0) /\
  _last_direction r <> Some "".

(** ** Strategy runtime ([backend/strategy_runtime.py])

    The bot is an object of the caller; the runtime reads and writes its
    attribute [last_exit_candle_time] and awaits its method
    [process_mds_on_close].  The datetime type, the snapshot type and the
    rest of the bot are parameters, and so are the two operations the
    runtime applies to them: [total_seconds a b] is
    [(a - b).total_seconds()], and [process snapshot close bot] is the
    awaited call, with the bot as it is when the call resumes.  An exception
    of the awaited call is one deriving from [Exception]. *)

Module ClosedCandleContext.
Record t (T Snap : Type) : Type :=
  mk { current_candle_time : T;
       candle_interval_seconds : Z;
       close : pyfloat;
       enforce_recent_exit_cooldown : bool;
       mds_snapshot : option Snap;
       signal : option string;
       flipped : bool;
       index_ltp : pyfloat }.
Arguments mk {T Snap}.
Arguments current_candle_time {T Snap}.
Arguments candle_interval_seconds {T Snap}.
Arguments close {T Snap}.
Arguments enforce_recent_exit_cooldown {T Snap}.
Arguments mds_snapshot {T Snap}.
Arguments signal {T Snap}.
Arguments flipped {T Snap}.
Arguments index_ltp {T Snap}.
End ClosedCandleContext.

(** The bot: [last_exit_candle_time] is [None] when the attribute is missing
    or holds [None]. *)
Record Bot (T S : Type) : Type :=
  mkBot { last_exit_candle_time : option T; bot_state : S }.
Arguments mkBot {T S}.
Arguments last_exit_candle_time {T S}.
Arguments bot_state {T S}.

Inductive Runtime : Type := StrategyRuntime | ScoreMdsRuntime.

(** Only [ScoreMdsRuntime] is built, whatever the indicator type. *)
Definition build_strategy_runtime (indicator_type : option string) : Runtime :=
  ScoreMdsRuntime.

Section RuntimeModel.
Context {T Snap S : Type}.
Variable total_seconds : T -> T -> pyfloat.
Variable process : Snap -> pyfloat -> Bot T S -> outcome bool * Bot T S.

Definition _recent_exit_cooldown_active (bot : Bot T S)
           (current_candle_time : T) (candle_interval_seconds : Z) : bool :=
  match last_exit_candle_time bot with
  | None => false
  | Some last =>
      let elapsed := total_seconds current_candle_time last in
      flt elapsed (fz candle_interval_seconds)
  end.

(** [ScoreMdsRuntime.on_closed_candle] *)
Definition score_mds_on_closed_candle (bot : Bot T S)
           (ctx : ClosedCandleContext.t T Snap) : outcome bool * Bot T S :=
  match ClosedCandleContext.mds_snapshot ctx with
  | None => (Returned false, bot)
  | Some snapshot =>
      if bool_ (ClosedCandleContext.enforce_recent_exit_cooldown ctx)
         && _recent_exit_cooldown_active bot
              (ClosedCandleContext.current_candle_time ctx)
              (ClosedCandleContext.candle_interval_seconds ctx)
      then (Returned false, bot)
      else
        match process snapshot (ClosedCandleContext.close ctx) bot with
        | (Returned exited, bot') =>
            if exited then
              (Returned (bool_ exited),
               mkBot (Some (ClosedCandleContext.current_candle_time ctx))
                     (bot_state bot'))
            else (Returned (bool_ exited), bot')
        | (Raised _, bot') => (Returned false, bot')
        end
  end.

(** [on_closed_candle] of a runtime: the base class does nothing. *)
Definition on_closed_candle (rt : Runtime) (bot : Bot T S)
           (ctx : ClosedCandleContext.t T Snap) : outcome bool * Bot T S :=
  match rt with
  | StrategyRuntime => (Returned false, bot)
  | ScoreMdsRuntime => score_mds_on_closed_candle bot ctx
  end.

(** Closed candles handled one after the other by the same runtime. *)
Fixpoint on_closed_candles (rt : Runtime) (bot : Bot T S)
         (ctxs : list (ClosedCandleContext.t T Snap))
  : list (outcome bool) * Bot T S :=
  match ctxs with
  | [] => ([], bot)
  | ctx :: rest =>
      let '(o, bot1) := on_closed_candle rt bot ctx in
      let '(os, bot2) := on_closed_candles rt bot1 rest in
      (o :: os, bot2)
  end.
End RuntimeModel.

(** ** Facts about float comparisons *)

Lemma fle_flt_false (x y : pyfloat) : fle x y = true -> flt y x = false.
Proof.
  destruct x as [a| | |], y as [b| | |]; simpl; try congruence.
  unfold Qlt_bool. now intros ->.
Qed.

Lemma feq_refl (x : pyfloat) : feq x x.
Proof. destruct x; simpl; auto with qarith. Qed.

Lemma fle_feq (x x' y y' : pyfloat) :
  feq x x' -> feq y y' -> fle x y = fle x' y'.
Proof.
  destruct x, x', y, y'; simpl; try tauto.
  intros Hx Hy. now rewrite Hx, Hy.
Qed.

Lemma flt_feq (x x' y y' : pyfloat) :
  feq x x' -> feq y y' -> flt x y = flt x' y'.
Proof.
  destruct x, x', y, y'; simpl; try tauto.
  intros Hx Hy. unfold Qlt_bool. now rewrite Hx, Hy.
Qed.

Lemma fabs_feq (x x' : pyfloat) : feq x x' -> feq (fabs x) (fabs x').
Proof.
  destruct x, x'; simpl; try tauto.
  intros Hx. now rewrite Hx.
Qed.

Lemma decide_exit_mds_feq (pt : string) (sc sc' sl sl' sm sm' : pyfloat) :
  feq sc sc' -> feq sl sl' -> feq sm sm' ->
  decide_exit_mds pt sc sl sm = decide_exit_mds pt sc' sl' sm'.
Proof.
  intros Hsc Hsl Hsm.
  pose proof (fabs_feq _ _ Hsc) as Hasc.
  pose proof (fabs_feq _ _ Hsm) as Hasm.
  unfold decide_exit_mds, fge, fgt.
  rewrite (fle_feq sc sc' _ _ Hsc (feq_refl _)).
  rewrite (fle_feq _ _ sc sc' (feq_refl (fz 10)) Hsc).
  rewrite (fle_feq _ _ _ _ Hasc (feq_refl (fz 6))).
  rewrite (fle_feq _ _ _ _ Hasm (feq_refl (fz 1))).
  rewrite (fle_feq sm sm' _ _ Hsm (feq_refl (fz (-1)))).
  rewrite (fle_feq sm sm' _ _ Hsm (feq_refl (fz 0))).
  rewrite (fle_feq _ _ sm sm' (feq_refl (fz 1)) Hsm).
  rewrite (fle_feq _ _ sm sm' (feq_refl (fz 0)) Hsm).
  rewrite (fle_feq sl sl' _ _ Hsl (feq_refl (fz (-2)))).
  rewrite (fle_feq _ _ sl sl' (feq_refl (fz 2)) Hsl).
  rewrite (flt_feq sc sc' _ _ Hsc (feq_refl (fz 12))).
  rewrite (flt_feq _ _ sc sc' (feq_refl (fz (-12))) Hsc).
  reflexivity.
Qed.

(** What [x or 0.0] and [float()] make of an optional float. *)
Lemma float_or_zero (x : option pyfloat) :
  exists v, float_ (py_or x (fz 0)) = Returned v /\ feq v (coerce_num x).
Proof.
  destruct x as [[q| | |]|]; simpl; try (eexists; split; [reflexivity|]; simpl; auto with qarith).
  unfold py_or, truthy, Truthy_float.
  destruct (Qeq_bool q 0) eqn:E; simpl; eexists; (split; [reflexivity|]); simpl.
  - apply Qeq_bool_eq in E. unfold fz. simpl. now rewrite E.
  - reflexivity.
Qed.

Lemma str_or_empty (x : option string) :
  str_ (py_or x "") = coerce_str x.
Proof.
  destruct x as [s|]; [|reflexivity].
  unfold py_or, truthy, Truthy_str.
  destruct (String.eqb_spec s ""); simpl; congruence.
Qed.

Lemma str_or_NONE (x : option string) :
  str_ (py_or x "NONE") = normalize x.
Proof.
  destruct x as [s|]; [|reflexivity].
  unfold py_or, truthy, Truthy_str.
  destruct (String.eqb_spec s ""); simpl.
  - subst. reflexivity.
  - destruct s; [congruence | reflexivity].
Qed.

Lemma int_or_zero (n : Z) : int_ (py_or (Some n) 0) = Returned n.
Proof.
  unfold py_or, truthy, Truthy_int.
  destruct (Z.eqb_spec n 0); simpl; congruence.
Qed.

Lemma str_or_same (s : string) : str_ (py_or (Some s) "") = s.
Proof. apply (str_or_empty (Some s)). Qed.

Lemma opt_str_eqb_true (o : option string) (s : string) :
  opt_str_eqb o s = true <-> o = Some s.
Proof.
  destruct o as [t|]; simpl.
  - rewrite String.eqb_eq. split; congruence.
  - split; congruence.
Qed.

Lemma abs_lt_or_zero (x : option pyfloat) (bound : pyfloat) :
  exists v, float_ (py_or x (fz 0)) = Returned v /\
            flt (fabs v) bound = flt (fabs (coerce_num x)) bound.
Proof.
  destruct (float_or_zero x) as (v & Hv & Hfeq).
  exists v. split; [exact Hv|].
  apply flt_feq; [now apply fabs_feq | apply feq_refl].
Qed.

Lemma decide_entry_qualifying (ready is_choppy : bool)
      (direction : option string) (score slope : option pyfloat)
      (cn : Z) (r : Runner) :
  qualifying ready is_choppy direction score slope ->
  let dir := normalize direction in
  let count := next_count r dir in
  ScoreMdsRunner.decide_entry ready is_choppy direction score slope cn r
  = (Returned
       (if count <? cn
        then StrategyEntryDecision.mk false "" "arming" count cn
        else StrategyEntryDecision.mk true
               (if String.eqb dir "CE" then "CE" else "PE") "" count cn),
     mkRunner (Some dir) count).
Proof.
  intros (-> & -> & Hdir & Hsc & Hsl). cbv zeta.
  set (dir := normalize direction) in *.
  set (count := next_count r dir).
  apply fle_flt_false in Hsc, Hsl.
  destruct (abs_lt_or_zero score (fz 10)) as (sc & Esc & Hsc').
  destruct (abs_lt_or_zero slope (fz 1)) as (sl & Esl & Hsl').
  rewrite Hsc in Hsc'. rewrite Hsl in Hsl'.
  apply String.eqb_neq in Hdir.
  unfold ScoreMdsRunner.decide_entry.
  rewrite str_or_NONE. fold dir.
  cbn [negb]. rewrite Hdir.
  unfold bind at 1. unfold lift at 1. rewrite Esc, Hsc'.
  unfold bind at 1. unfold lift at 1. rewrite Esl, Hsl'.
  unfold bind at 1. unfold get_last_direction at 1.
  assert (Hgate : forall n,
             decide_entry_mds (bool_ true) (bool_ false) dir sc sl n cn
             = if n <? cn then EntryDecision.mk false "" "arming"
               else EntryDecision.mk true
                      (if String.eqb dir "CE" then "CE" else "PE") "").
  { intros n. unfold decide_entry_mds, bool_. cbn [negb].
    rewrite Hdir, Hsc', Hsl'. reflexivity. }
  unfold count, next_count.
  rewrite !int_or_zero.
  destruct (opt_str_eqb (_last_direction r) dir) eqn:E.
  - apply opt_str_eqb_true in E.
    unfold bind, lift, ret, get_confirm_count, set_confirm_count.
    cbn [_last_direction _confirm_count].
    rewrite Hgate, E, !str_or_same.
    destruct (_confirm_count r + 1 <? cn); reflexivity.
  - unfold bind, lift, ret, get_confirm_count, set_confirm_count,
      set_last_direction.
    cbn [_last_direction _confirm_count].
    rewrite Hgate, !str_or_same.
    destruct (1 <? cn); reflexivity.
Qed.

Lemma decide_entry_early (ready is_choppy : bool) (direction : option string)
      (score slope : option pyfloat) (cn : Z) (r : Runner) :
  ready = false \/ is_choppy = true ->
  ScoreMdsRunner.decide_entry ready is_choppy direction score slope cn r
  = (Returned (StrategyEntryDecision.mk false ""
                 (if negb ready then "mds_not_ready" else "mds_choppy") 0 0),
     r).
Proof.
  unfold ScoreMdsRunner.decide_entry.
  intros [-> | ->]; [reflexivity|].
  destruct ready; reflexivity.
Qed.

Lemma decide_entry_reset (direction : option string)
      (score slope : option pyfloat) (cn : Z) (r : Runner) :
  normalize direction = "NONE" \/
  flt (fabs (coerce_num score)) (fz 10) = true \/
  flt (fabs (coerce_num slope)) (fz 1) = true ->
  ScoreMdsRunner.decide_entry true false direction score slope cn r
  = (Returned (StrategyEntryDecision.mk false ""
                 (reset_reason (normalize direction) (coerce_num score)) 0 cn),
     mkRunner (Some (normalize direction)) 0).
Proof.
  intros H.
  destruct (abs_lt_or_zero score (fz 10)) as (sc & Esc & Hsc).
  destruct (abs_lt_or_zero slope (fz 1)) as (sl & Esl & Hsl).
  unfold ScoreMdsRunner.decide_entry, reset_reason.
  rewrite str_or_NONE. cbn [negb].
  destruct (String.eqb (normalize direction) "NONE") eqn:Edir;
    [reflexivity|].
  unfold bind at 1. unfold lift at 1. rewrite Esc, Hsc.
  destruct (flt (fabs (coerce_num score)) (fz 10)) eqn:Elow; [reflexivity|].
  unfold bind at 1. unfold lift at 1. rewrite Esl, Hsl.
  destruct H as [H | [H | H]].
  - apply String.eqb_neq in Edir. contradiction.
  - discriminate.
  - rewrite H. reflexivity.
Qed.

(** ** Exit decision *)

Lemma decide_exit_mds_selected (side : PositionType)
      (score slope slow_mom : pyfloat) :
  decide_exit_mds (pt_str side) score slope slow_mom
  = exit_selected side score slope slow_mom.
Proof.
  unfold decide_exit_mds, exit_selected, rules, find, score_cond, slow_cond.
  destruct side; cbn [pt_str String.eqb Ascii.eqb Bool.eqb].
  - destruct (fle score (fz (-10))); [destruct (fle slow_mom (fz (-1))); reflexivity|].
    destruct (fle (fabs score) (fz 6)); [destruct (fle (fabs slow_mom) (fz 1)); reflexivity|].
    destruct (fle slope (fz (-2)) && flt score (fz 12));
      [destruct (fle slow_mom (fz 0)); reflexivity | reflexivity].
  - destruct (fge score (fz 10)); [destruct (fge slow_mom (fz 1)); reflexivity|].
    destruct (fle (fabs score) (fz 6)); [destruct (fle (fabs slow_mom) (fz 1)); reflexivity|].
    destruct (fge slope (fz 2) && fgt score (fz (-12)));
      [destruct (fge slow_mom (fz 0)); reflexivity | reflexivity].
Qed.

Lemma exit_selected_sound (side : PositionType)
      (score slope slow_mom : pyfloat) :
  ExitDecision.should_exit (exit_selected side score slope slow_mom) = true ->
  exit_selected side score slope slow_mom
  = exit_first_match side score slope slow_mom.
Proof.
  unfold exit_selected, exit_first_match, rules, find, rule_holds.
  destruct (score_cond side Reversal score slope);
    [destruct (slow_cond side Reversal slow_mom); [reflexivity | discriminate]|].
  destruct (score_cond side Neutral score slope);
    [destruct (slow_cond side Neutral slow_mom); [reflexivity | discriminate]|].
  destruct (score_cond side MomentumLoss score slope);
    [destruct (slow_cond side MomentumLoss slow_mom); [reflexivity | discriminate]|].
  discriminate.
Qed.

Lemma exit_selected_none (side : PositionType)
      (score slope slow_mom : pyfloat) :
  (forall r, rule_holds side r score slope slow_mom = false) ->
  exit_selected side score slope slow_mom = no_exit.
Proof.
  intros H.
  pose proof (H Reversal) as H1.
  pose proof (H Neutral) as H2.
  pose proof (H MomentumLoss) as H3.
  unfold rule_holds in *.
  unfold exit_selected, rules, find.
  destruct (score_cond side Reversal score slope);
    [cbn [andb] in H1; now rewrite H1|].
  destruct (score_cond side Neutral score slope);
    [cbn [andb] in H2; now rewrite H2|].
  destruct (score_cond side MomentumLoss score slope);
    [cbn [andb] in H3; now rewrite H3|].
  reflexivity.
Qed.

(** C2, as stated, fails: a CE position with score -11, slope -3 and
    slow_mom -0.5 is outside the reversal band (slow_mom > -1) and the neutral
    band (|score| > 6) and inside the momentum-loss band, so first match over
    the full conditions exits with "MDS Momentum Loss (slow confirm)"; the
    code takes the [score <= -10] branch, finds slow_mom unconfirmed and
    returns no exit. *)
Lemma decide_exit_mds_not_first_match :
  let score := fz (-11) in
  let slope := fz (-3) in
  let slow_mom := Fin (-1 # 2) in
  rule_holds PosCE Reversal score slope slow_mom = false /\
  rule_holds PosCE Neutral score slope slow_mom = false /\
  rule_holds PosCE MomentumLoss score slope slow_mom = true /\
  exit_first_match PosCE score slope slow_mom
  = ExitDecision.mk true "MDS Momentum Loss (slow confirm)" /\
  decide_exit_mds "CE" score slope slow_mom = ExitDecision.mk false "".
Proof. repeat split. Qed.

Example exit_neutral_precedes_momentum_loss :
  decide_exit_mds "CE" (fz 5) (fz (-2)) (Fin (-1 # 10))
  = ExitDecision.mk true "MDS Neutral (slow confirm)".
Proof. reflexivity. Qed.

Example exit_reversal_at_boundary :
  decide_exit_mds "CE" (fz (-10)) (fz 0) (fz (-1))
  = ExitDecision.mk true "MDS Reversal (slow confirm)".
Proof. reflexivity. Qed.

(** C2 (amended): for every position_type in {CE, PE} and all score, slope
    and slow_mom, decide_exit selects the first rule, in the order reversal,
    neutral, momentum loss, whose score/slope condition holds (CE: score <=
    -10; |score| <= 6; slope <= -2 and score < 12; mirrored for PE) and
    exits with that rule's reason exactly when the rule's slow_mom
    condition holds too, a later rule not being tried when it does not.
    Hence whenever it exits, the reason is that of the first rule whose
    full condition holds, and it returns no exit when none of the three full
    conditions holds. *)
Theorem decide_exit_mds_band_then_confirm (side : PositionType)
        (score slope slow_mom : pyfloat) :
  let d := decide_exit_mds (pt_str side) score slope slow_mom in
  d = exit_selected side score slope slow_mom /\
  (ExitDecision.should_exit d = true ->
   d = exit_first_match side score slope slow_mom) /\
  ((forall r, rule_holds side r score slope slow_mom = false) ->
   d = ExitDecision.mk false "").
Proof.
  cbv zeta. rewrite decide_exit_mds_selected.
  split; [reflexivity|]. split.
  - apply exit_selected_sound.
  - apply exit_selected_none.
Qed.

Lemma decide_exit_mds_band_then_confirm_witness :
  ExitDecision.should_exit
    (decide_exit_mds (pt_str PosPE) (fz 8) (fz 2) (fz 0)) = true /\
  decide_exit_mds (pt_str PosPE) (fz 8) (fz 2) (fz 0)
  = exit_first_match PosPE (fz 8) (fz 2) (fz 0) /\
  (forall r, rule_holds PosCE r (fz 20) (fz 0) (fz 3) = false) /\
  decide_exit_mds (pt_str PosCE) (fz 20) (fz 0) (fz 3)
  = ExitDecision.mk false "".
Proof.
  split; [reflexivity|]. split.
  - apply (decide_exit_mds_band_then_confirm PosPE (fz 8) (fz 2) (fz 0)).
    reflexivity.
  - assert (H : forall r, rule_holds PosCE r (fz 20) (fz 0) (fz 3) = false)
      by (intros []; reflexivity).
    split; [exact H|].
    apply (decide_exit_mds_band_then_confirm PosCE (fz 20) (fz 0) (fz 3)).
    exact H.
Defined.

(** C8: decide_exit is a total function of an arbitrary position_type string
    and arbitrary floats (NaN and the infinities included); for every
    position_type other than "CE" and "PE" it returns should_exit = false
    with reason "", whatever the numbers, and for CE and PE with inputs
    outside all three exit bands it returns should_exit = false with
    reason "" as well. *)
Theorem decide_exit_mds_no_exit (position_type : string)
        (score slope slow_mom : pyfloat) :
  (position_type <> "CE" -> position_type <> "PE" ->
   decide_exit_mds position_type score slope slow_mom
   = ExitDecision.mk false "") /\
  (forall side : PositionType,
      position_type = pt_str side ->
      rule_holds side Reversal score slope slow_mom = false ->
      rule_holds side Neutral score slope slow_mom = false ->
      rule_holds side MomentumLoss score slope slow_mom = false ->
      decide_exit_mds position_type score slope slow_mom
      = ExitDecision.mk false "").
Proof.
  split.
  - intros HCE HPE. unfold decide_exit_mds.
    apply String.eqb_neq in HCE, HPE. rewrite HCE, HPE. reflexivity.
  - intros side -> H1 H2 H3.
    rewrite decide_exit_mds_selected.
    apply exit_selected_none. intros []; assumption.
Qed.

Lemma decide_exit_mds_no_exit_witness :
  decide_exit_mds "XX" (fz (-10)) NaN (fz (-1)) = ExitDecision.mk false "" /\
  decide_exit_mds "PE" (fz (-20)) PInf (fz (-2)) = ExitDecision.mk false "".
Proof.
  split.
  - apply (decide_exit_mds_no_exit "XX" (fz (-10)) NaN (fz (-1)));
      discriminate.
  - apply (proj2 (decide_exit_mds_no_exit "PE" (fz (-20)) PInf (fz (-2)))
             PosPE); reflexivity.
Defined.

(** ** Entry gate *)

(** C3: decide_entry evaluates its six gates in the order ready, is_choppy,
    direction, score, slope, confirmation and returns at the first failing
    one with the reason mds_not_ready, mds_choppy, neutral_band,
    score_too_low, slope_too_low or arming; ready = false yields
    mds_not_ready whatever the other inputs; when every gate passes it
    returns should_enter = true, an empty reason, and option_type "CE" for
    direction "CE" and "PE" for anything else. *)
Theorem decide_entry_mds_gate_order (ready is_choppy : bool)
        (direction : string) (score slope : pyfloat)
        (confirm_count confirm_needed : Z) :
  let d := decide_entry_mds ready is_choppy direction score slope
             confirm_count confirm_needed in
  let fail := EntryDecision.mk false "" in
  (ready = false -> d = fail "mds_not_ready") /\
  (ready = true -> is_choppy = true -> d = fail "mds_choppy") /\
  (ready = true -> is_choppy = false -> direction = "NONE" ->
   d = fail "neutral_band") /\
  (ready = true -> is_choppy = false -> direction <> "NONE" ->
   flt (fabs score) (fz 10) = true -> d = fail "score_too_low") /\
  (ready = true -> is_choppy = false -> direction <> "NONE" ->
   flt (fabs score) (fz 10) = false -> flt (fabs slope) (fz 1) = true ->
   d = fail "slope_too_low") /\
  (ready = true -> is_choppy = false -> direction <> "NONE" ->
   flt (fabs score) (fz 10) = false -> flt (fabs slope) (fz 1) = false ->
   confirm_count < confirm_needed -> d = fail "arming") /\
  (ready = true -> is_choppy = false -> direction <> "NONE" ->
   flt (fabs score) (fz 10) = false -> flt (fabs slope) (fz 1) = false ->
   confirm_needed <= confirm_count ->
   (direction = "CE" -> d = EntryDecision.mk true "CE" "") /\
   (direction <> "CE" -> d = EntryDecision.mk true "PE" "")).
Proof.
  cbv zeta. unfold decide_entry_mds.
  repeat match goal with |- _ /\ _ => split end.
  - now intros ->.
  - now intros -> ->.
  - now intros -> -> ->.
  - intros -> -> Hd ->. apply String.eqb_neq in Hd. now rewrite Hd.
  - intros -> -> Hd -> ->. apply String.eqb_neq in Hd. now rewrite Hd.
  - intros -> -> Hd -> -> Hc. apply String.eqb_neq in Hd.
    apply Z.ltb_lt in Hc. cbn [negb]. now rewrite Hd, Hc.
  - intros -> -> Hd -> -> Hc. apply String.eqb_neq in Hd.
    apply Z.ltb_ge in Hc. cbn [negb]. rewrite Hd, Hc. split.
    + now intros ->.
    + intros Hce. apply String.eqb_neq in Hce. now rewrite Hce.
Qed.

Lemma decide_entry_mds_gate_order_witness :
  let fail := EntryDecision.mk false "" in
  decide_entry_mds false true "NONE" NaN (fz 0) 0 9 = fail "mds_not_ready" /\
  decide_entry_mds true true "NONE" (fz 0) (fz 0) 0 9 = fail "mds_choppy" /\
  decide_entry_mds true false "NONE" (fz 0) (fz 0) 0 9 = fail "neutral_band" /\
  decide_entry_mds true false "CE" (fz 9) (fz 0) 0 9 = fail "score_too_low" /\
  decide_entry_mds true false "CE" (fz (-10)) (Fin (1 # 2)) 0 9
  = fail "slope_too_low" /\
  decide_entry_mds true false "CE" (fz 10) (fz (-1)) 2 3 = fail "arming" /\
  decide_entry_mds true false "CE" (fz 10) (fz 1) 3 3
  = EntryDecision.mk true "CE" "" /\
  decide_entry_mds true false "SELL" (fz (-10)) (fz 1) 4 3
  = EntryDecision.mk true "PE" "".
Proof.
  cbv zeta.
  repeat match goal with |- _ /\ _ => split end.
  - apply (decide_entry_mds_gate_order false true "NONE" NaN (fz 0) 0 9).
    reflexivity.
  - apply (decide_entry_mds_gate_order true true "NONE" (fz 0) (fz 0) 0 9);
      reflexivity.
  - apply (decide_entry_mds_gate_order true false "NONE" (fz 0) (fz 0) 0 9);
      reflexivity.
  - apply (decide_entry_mds_gate_order true false "CE" (fz 9) (fz 0) 0 9);
      (reflexivity || discriminate).
  - apply (decide_entry_mds_gate_order true false "CE" (fz (-10)) (Fin (1 # 2))
             0 9); (reflexivity || discriminate).
  - apply (decide_entry_mds_gate_order true false "CE" (fz 10) (fz (-1)) 2 3);
      (reflexivity || discriminate || lia).
  - apply (decide_entry_mds_gate_order true false "CE" (fz 10) (fz 1) 3 3);
      (reflexivity || discriminate || lia).
  - apply (decide_entry_mds_gate_order true false "SELL" (fz (-10)) (fz 1) 4 3);
      (reflexivity || discriminate || lia).
Defined.

(** ** Runner *)

Section RunnerClaims.
Local Open Scope runner_scope.
Import ScoreMdsRunner.

(** C10: for every Runner state and every decide_entry call with
    ready = false or is_choppy = true, the returned decision has
    should_enter = false, empty option_type, confirm_count = 0 and
    confirm_needed = 0 (the supplied confirm_needed is not echoed), and
    last_direction and confirm_count of the Runner are left unchanged. *)
Theorem decide_entry_not_ready_or_choppy_frame
        (r : Runner) (ready is_choppy : bool) (direction : option string)
        (score slope : option pyfloat) (confirm_needed : Z) :
  ready = false \/ is_choppy = true ->
  exists d,
    decide_entry ready is_choppy direction score slope confirm_needed r
    = (Returned d, r) /\
    StrategyEntryDecision.should_enter d = false /\
    StrategyEntryDecision.option_type d = "" /\
    StrategyEntryDecision.reason d
    = (if negb ready then "mds_not_ready" else "mds_choppy") /\
    StrategyEntryDecision.confirm_count d = 0 /\
    StrategyEntryDecision.confirm_needed d = 0.
Proof.
  intros H. eexists. split.
  - apply decide_entry_early, H.
  - repeat split.
Qed.

Lemma decide_entry_not_ready_or_choppy_frame_witness :
  exists d,
    decide_entry true true (Some "PE") (Some (fz 20)) None 7
      (mkRunner (Some "CE") 2)
    = (Returned d, mkRunner (Some "CE") 2) /\
    StrategyEntryDecision.should_enter d = false /\
    StrategyEntryDecision.option_type d = "" /\
    StrategyEntryDecision.reason d = "mds_choppy" /\
    StrategyEntryDecision.confirm_count d = 0 /\
    StrategyEntryDecision.confirm_needed d = 0.
Proof.
  apply (decide_entry_not_ready_or_choppy_frame (mkRunner (Some "CE") 2)
           true true (Some "PE") (Some (fz 20)) None 7).
  right. reflexivity.
Defined.

(** C1, as stated, fails: two qualifying CE calls bring a fresh Runner to
    last_direction CE and confirm_count 2; a third call with
    is_choppy = true and direction PE is disqualifying, yet it leaves
    last_direction at CE and confirm_count at 2, and the qualifying CE call
    after it reports confirm_count 3. *)
Lemma decide_entry_choppy_keeps_state :
  let sc := Some (fz 20) in
  let sl := Some (fz 5) in
  let r2 := snd ((decide_entry true false (Some "CE") sc sl 3 ;;
                  decide_entry true false (Some "CE") sc sl 3) init) in
  let r3 := snd (decide_entry true true (Some "PE") sc sl 3 r2) in
  disqualifying true true (Some "PE") sc sl /\
  r2 = mkRunner (Some "CE") 2 /\
  r3 = mkRunner (Some "CE") 2 /\
  ~ (_last_direction r3 = Some (normalize (Some "PE")) /\
     _confirm_count r3 = 0) /\
  fst (decide_entry true false (Some "CE") sc sl 3 r3)
  = Returned (StrategyEntryDecision.mk true "CE" "" 3 3).
Proof.
  cbv zeta. split; [right; left; reflexivity|].
  split; [reflexivity|]. split; [reflexivity|]. split.
  - intros [H _]. discriminate H.
  - reflexivity.
Qed.

(** C1 (amended): for every Runner state and every decide_entry call whose
    inputs are disqualifying, the returned decision is the corresponding
    failure decision of the entry gate carrying confirm_count = 0; when
    ready is true and is_choppy is false (so the disqualifying condition is
    normalized direction NONE, |score| < 10.0 or |slope| < 1.0) the
    Runner's last_direction afterwards equals the normalized direction and
    its confirm_count equals 0; when ready is false or is_choppy is true
    both fields are left as they were. *)
Theorem decide_entry_disqualifying
        (r : Runner) (ready is_choppy : bool) (direction : option string)
        (score slope : option pyfloat) (confirm_needed : Z) :
  disqualifying ready is_choppy direction score slope ->
  exists d r',
    decide_entry ready is_choppy direction score slope confirm_needed r
    = (Returned d, r') /\
    (forall count needed,
        d = carry (decide_entry_mds ready is_choppy (normalize direction)
                     (coerce_num score) (coerce_num slope) count needed)
              0 (StrategyEntryDecision.confirm_needed d)) /\
    StrategyEntryDecision.should_enter d = false /\
    StrategyEntryDecision.confirm_count d = 0 /\
    (ready = true -> is_choppy = false ->
     r' = mkRunner (Some (normalize direction)) 0) /\
    (ready = false \/ is_choppy = true -> r' = r).
Proof.
  intros H.
  destruct ready; [destruct is_choppy|].
  - eexists; eexists. split; [apply decide_entry_early; now right|].
    repeat split; try discriminate.
  - destruct H as [H | [H | H]]; try discriminate.
    eexists; eexists. split; [apply decide_entry_reset, H|].
    split; [|repeat split; intros [? | ?]; discriminate].
    intros count needed. unfold decide_entry_mds, carry, reset_reason.
    cbn [negb].
    destruct (String.eqb (normalize direction) "NONE") eqn:Edir;
      [reflexivity|].
    destruct (flt (fabs (coerce_num score)) (fz 10)) eqn:Esc; [reflexivity|].
    destruct H as [H | [H | H]].
    + apply String.eqb_neq in Edir. contradiction.
    + discriminate.
    + rewrite H. reflexivity.
  - eexists; eexists. split; [apply decide_entry_early; now left|].
    repeat split; try discriminate.
Qed.

Lemma decide_entry_disqualifying_witness :
  exists d r',
    decide_entry true false (Some "CE") (Some (fz 9)) (Some (fz 5)) 3
      (mkRunner (Some "CE") 2)
    = (Returned d, r') /\
    (forall count needed,
        d = carry (decide_entry_mds true false (normalize (Some "CE"))
                     (coerce_num (Some (fz 9))) (coerce_num (Some (fz 5)))
                     count needed)
              0 (StrategyEntryDecision.confirm_needed d)) /\
    StrategyEntryDecision.should_enter d = false /\
    StrategyEntryDecision.confirm_count d = 0 /\
    (true = true -> false = false ->
     r' = mkRunner (Some (normalize (Some "CE"))) 0) /\
    (true = false \/ false = true -> r' = mkRunner (Some "CE") 2).
Proof.
  apply (decide_entry_disqualifying (mkRunner (Some "CE") 2) true false
           (Some "CE") (Some (fz 9)) (Some (fz 5)) 3).
  right; right; right; left. reflexivity.
Defined.

Lemma next_count_same (r : Runner) (dir : string) :
  _last_direction r = Some dir -> next_count r dir = _confirm_count r + 1.
Proof.
  intros H. unfold next_count.
  now rewrite (proj2 (opt_str_eqb_true _ _) H).
Qed.

Lemma next_count_flip (r : Runner) (dir : string) :
  _last_direction r <> Some dir -> next_count r dir = 1.
Proof.
  intros H. unfold next_count.
  destruct (opt_str_eqb (_last_direction r) dir) eqn:E; [|reflexivity].
  apply opt_str_eqb_true in E. contradiction.
Qed.

(** C4: starting from a freshly reset Runner, three consecutive
    decide_entry calls with identical qualifying CE inputs (ready, not
    choppy, direction CE, |score| >= 10.0, |slope| >= 1.0) and
    confirm_needed = 3 return decisions with confirm_count 1, 2, 3 in
    order, the first two with should_enter = false and reason arming, only
    the third with should_enter = true. *)
Theorem decide_entry_accumulates
        (r0 : Runner) (score slope : option pyfloat) :
  fle (fz 10) (fabs (coerce_num score)) = true ->
  fle (fz 1) (fabs (coerce_num slope)) = true ->
  let call := decide_entry true false (Some "CE") score slope 3 in
  (reset ;;
   d1 <- call ;; d2 <- call ;; d3 <- call ;; ret [d1; d2; d3]) r0
  = (Returned [StrategyEntryDecision.mk false "" "arming" 1 3;
               StrategyEntryDecision.mk false "" "arming" 2 3;
               StrategyEntryDecision.mk true "CE" "" 3 3],
     mkRunner (Some "CE") 3).
Proof.
  intros Hsc Hsl call.
  assert (Hq : qualifying true false (Some "CE") score slope).
  { repeat split; try assumption. discriminate. }
  assert (Hcall : forall r, call r = _) by
    (intros r; exact (decide_entry_qualifying _ _ _ _ _ 3 r Hq)).
  cbv zeta in Hcall.
  unfold bind at 1. cbn [reset bind set_last_direction set_confirm_count].
  unfold bind at 1. rewrite Hcall.
  unfold bind at 1. rewrite Hcall.
  unfold bind at 1. rewrite Hcall.
  reflexivity.
Qed.

Lemma decide_entry_accumulates_witness :
  (reset ;;
   d1 <- decide_entry true false (Some "CE") (Some (fz (-12))) (Some PInf) 3 ;;
   d2 <- decide_entry true false (Some "CE") (Some (fz (-12))) (Some PInf) 3 ;;
   d3 <- decide_entry true false (Some "CE") (Some (fz (-12))) (Some PInf) 3 ;;
   ret [d1; d2; d3]) (mkRunner (Some "CE") 5)
  = (Returned [StrategyEntryDecision.mk false "" "arming" 1 3;
               StrategyEntryDecision.mk false "" "arming" 2 3;
               StrategyEntryDecision.mk true "CE" "" 3 3],
     mkRunner (Some "CE") 3).
Proof.
  apply (decide_entry_accumulates (mkRunner (Some "CE") 5)
           (Some (fz (-12))) (Some PInf)); reflexivity.
Defined.

(** C5: for every Runner state, a qualifying decide_entry call with
    direction CE followed by a qualifying call with direction PE yields
    confirm_count = 1 on the second call, with last_direction updated to
    PE; more generally a qualifying call whose direction differs from
    last_direction restarts the count at 1. *)
Theorem decide_entry_flip_restarts (r : Runner) :
  (forall sc1 sl1 n1 sc2 sl2 n2,
      qualifying true false (Some "CE") sc1 sl1 ->
      qualifying true false (Some "PE") sc2 sl2 ->
      exists d1 d2,
        (d1 <- decide_entry true false (Some "CE") sc1 sl1 n1 ;;
         d2 <- decide_entry true false (Some "PE") sc2 sl2 n2 ;;
         ret (d1, d2)) r
        = (Returned (d1, d2), mkRunner (Some "PE") 1) /\
        StrategyEntryDecision.confirm_count d2 = 1) /\
  (forall ready is_choppy direction score slope needed,
      qualifying ready is_choppy direction score slope ->
      _last_direction r <> Some (normalize direction) ->
      exists d,
        decide_entry ready is_choppy direction score slope needed r
        = (Returned d, mkRunner (Some (normalize direction)) 1) /\
        StrategyEntryDecision.confirm_count d = 1).
Proof.
  split.
  - intros sc1 sl1 n1 sc2 sl2 n2 H1 H2.
    unfold bind at 1.
    rewrite (decide_entry_qualifying _ _ _ _ _ n1 r H1).
    unfold bind at 1.
    rewrite (decide_entry_qualifying _ _ _ _ _ n2 _ H2).
    cbn [normalize].
    rewrite (next_count_flip _ "PE") by (cbn; discriminate).
    eexists; eexists. split; [reflexivity|].
    destruct (1 <? n2); reflexivity.
  - intros ready is_choppy direction score slope needed Hq Hflip.
    rewrite (decide_entry_qualifying _ _ _ _ _ needed r Hq).
    rewrite (next_count_flip _ _ Hflip).
    eexists. split; [reflexivity|].
    destruct (1 <? needed); reflexivity.
Qed.

Lemma decide_entry_flip_restarts_witness :
  (exists d1 d2,
      (d1 <- decide_entry true false (Some "CE") (Some (fz 11)) (Some (fz 1)) 2 ;;
       d2 <- decide_entry true false (Some "PE") (Some (fz (-11)))
               (Some (fz (-1))) 2 ;;
       ret (d1, d2)) (mkRunner (Some "CE") 1)
      = (Returned (d1, d2), mkRunner (Some "PE") 1) /\
      StrategyEntryDecision.confirm_count d2 = 1) /\
  (exists d,
      decide_entry true false (Some "PE") (Some (fz (-11))) (Some (fz (-1))) 2
        (mkRunner (Some "CE") 4)
      = (Returned d, mkRunner (Some (normalize (Some "PE"))) 1) /\
      StrategyEntryDecision.confirm_count d = 1).
Proof.
  split.
  - apply (decide_entry_flip_restarts (mkRunner (Some "CE") 1));
      repeat split; discriminate.
  - apply (decide_entry_flip_restarts (mkRunner (Some "CE") 4));
      [repeat split|]; discriminate.
Defined.

(** C6: for every Runner state, on_entry_attempted sets confirm_count to 0
    and leaves last_direction unchanged, so a subsequent qualifying
    decide_entry call with the same direction as the preserved
    last_direction yields confirm_count = 1, not a reused higher value. *)
Theorem on_entry_attempted_restarts (r : Runner) :
  on_entry_attempted r = (Returned tt, mkRunner (_last_direction r) 0) /\
  (forall ready is_choppy direction score slope needed,
      qualifying ready is_choppy direction score slope ->
      _last_direction r = Some (normalize direction) ->
      exists d,
        (on_entry_attempted ;;
         decide_entry ready is_choppy direction score slope needed) r
        = (Returned d, mkRunner (Some (normalize direction)) 1) /\
        StrategyEntryDecision.confirm_count d = 1).
Proof.
  split; [reflexivity|].
  intros ready is_choppy direction score slope needed Hq Hlast.
  unfold bind, on_entry_attempted, set_confirm_count.
  rewrite (decide_entry_qualifying _ _ _ _ _ needed _ Hq).
  rewrite next_count_same by exact Hlast.
  cbn [_confirm_count Z.add].
  eexists. split; [reflexivity|].
  destruct (1 <? needed); reflexivity.
Qed.

Lemma on_entry_attempted_restarts_witness :
  exists d,
    (on_entry_attempted ;;
     decide_entry true false (Some "PE") (Some (fz (-15))) (Some (fz 2)) 3)
      (mkRunner (Some "PE") 3)
    = (Returned d, mkRunner (Some (normalize (Some "PE"))) 1) /\
    StrategyEntryDecision.confirm_count d = 1.
Proof.
  apply (on_entry_attempted_restarts (mkRunner (Some "PE") 3));
    [repeat split; discriminate | reflexivity].
Defined.

Lemma decide_entry_armed_step
      (r : Runner) (direction : option string)
      (score slope : option pyfloat) (needed : Z) :
  armed r (normalize direction) needed ->
  qualifying true false direction score slope ->
  exists d r',
    decide_entry true false direction score slope needed r
    = (Returned d, r') /\
    StrategyEntryDecision.should_enter d = true /\
    armed r' (normalize direction) needed.
Proof.
  intros [Hlast Hcount] Hq.
  rewrite (decide_entry_qualifying _ _ _ _ _ needed r Hq).
  rewrite (next_count_same _ _ Hlast).
  assert (E : (_confirm_count r + 1 <? needed) = false)
    by (apply Z.ltb_ge; lia).
  rewrite E. eexists; eexists. split; [reflexivity|].
  split; [reflexivity|].
  split; cbn [_last_direction _confirm_count]; [reflexivity | lia].
Qed.

(** C7: once a Runner is armed for a direction (last_direction is that
    direction, confirm_count >= confirm_needed >= 1), every subsequent
    decide_entry call with qualifying inputs of the same direction returns
    should_enter = true and leaves the Runner armed; so no run of such
    calls, however long, ends the stream of enter decisions. *)
Theorem decide_entry_stays_armed
        (direction : option string) (needed : Z)
        (obs : list (option pyfloat * option pyfloat)) (r : Runner) :
  armed r (normalize direction) needed ->
  Forall (fun o => qualifying true false direction (fst o) (snd o)) obs ->
  exists ds r',
    decide_entries direction needed obs r = (Returned ds, r') /\
    length ds = length obs /\
    Forall (fun d => StrategyEntryDecision.should_enter d = true) ds /\
    armed r' (normalize direction) needed.
Proof.
  intros Harmed Hobs. revert r Harmed.
  induction Hobs as [| [score slope] rest Hq Hrest IH]; intros r Harmed.
  - exists [], r. repeat split; try apply Harmed. constructor.
  - cbn [decide_entries fst snd] in *.
    destruct (decide_entry_armed_step r direction score slope needed
                Harmed Hq) as (d & r1 & Ecall & Henter & Harmed1).
    destruct (IH r1 Harmed1) as (ds & r' & Erest & Hlen & Hall & Harmed').
    exists (d :: ds), r'.
    unfold bind at 1. rewrite Ecall.
    unfold bind at 1. rewrite Erest.
    split; [reflexivity|].
    split; [cbn [length]; now rewrite Hlen|].
    split; [now constructor | exact Harmed'].
Qed.

Lemma decide_entry_stays_armed_witness :
  exists ds r',
    decide_entries (Some "CE") 2
      [(Some (fz 10), Some (fz 1)); (Some (fz 30), Some (fz (-4)))]
      (mkRunner (Some "CE") 2)
    = (Returned ds, r') /\
    length ds = 2%nat /\
    Forall (fun d => StrategyEntryDecision.should_enter d = true) ds /\
    armed r' (normalize (Some "CE")) 2.
Proof.
  apply (decide_entry_stays_armed (Some "CE") 2
           [(Some (fz 10), Some (fz 1)); (Some (fz 30), Some (fz (-4)))]
           (mkRunner (Some "CE") 2)).
  - split; [reflexivity | cbn; lia].
  - repeat constructor; discriminate.
Defined.

(** C9: for every Runner state and all inputs, the numeric arguments and
    position_type possibly absent, the Runner's decide_exit returns (it
    does not raise) exactly the result of the pure exit function on the
    coerced inputs (an absent number is 0.0, an absent position_type the
    empty string) and leaves last_direction and confirm_count unchanged;
    hence two calls with identical inputs give identical results. *)
Theorem decide_exit_passthrough
        (r : Runner) (position_type : option string)
        (score slope slow_mom : option pyfloat) :
  let d := decide_exit_mds (coerce_str position_type) (coerce_num score)
             (coerce_num slope) (coerce_num slow_mom) in
  let sd := StrategyExitDecision.mk (ExitDecision.should_exit d)
              (ExitDecision.reason d) in
  decide_exit position_type score slope slow_mom r = (Returned sd, r) /\
  (d1 <- decide_exit position_type score slope slow_mom ;;
   d2 <- decide_exit position_type score slope slow_mom ;;
   ret (d1, d2)) r = (Returned (sd, sd), r).
Proof.
  cbv zeta.
  assert (H : forall r0,
             decide_exit position_type score slope slow_mom r0
             = (Returned
                  (StrategyExitDecision.mk
                     (ExitDecision.should_exit
                        (decide_exit_mds (coerce_str position_type)
                           (coerce_num score) (coerce_num slope)
                           (coerce_num slow_mom)))
                     (ExitDecision.reason
                        (decide_exit_mds (coerce_str position_type)
                           (coerce_num score) (coerce_num slope)
                           (coerce_num slow_mom)))), r0)).
  { intros r0.
    destruct (float_or_zero score) as (sc & Esc & Hsc).
    destruct (float_or_zero slope) as (sl & Esl & Hsl).
    destruct (float_or_zero slow_mom) as (sm & Esm & Hsm).
    unfold decide_exit, bind, lift, ret, bool_.
    rewrite Esc, Esl, Esm, str_or_empty, str_or_same.
    now rewrite (decide_exit_mds_feq _ _ _ _ _ _ _ Hsc Hsl Hsm). }
  split; [apply H|].
  unfold bind at 1. rewrite H.
  unfold bind at 1. rewrite H.
  reflexivity.
Qed.
End RunnerClaims.

(** ** Further properties of the exit bands *)

Lemma fle_Fin_spec (a b : Q) : reflect (a <= b)%Q (fle (Fin a) (Fin b)).
Proof.
  cbn [fle]. destruct (Qle_bool a b) eqn:E; constructor.
  - now apply Qle_bool_iff.
  - intros H. apply Qle_bool_iff in H. congruence.
Qed.

Lemma flt_Fin_spec (a b : Q) : reflect (a < b)%Q (flt (Fin a) (Fin b)).
Proof.
  cbn [flt]. unfold Qlt_bool. destruct (Qle_bool b a) eqn:E; constructor.
  - apply Qle_bool_iff in E. lra.
  - apply Qnot_le_lt. intros H. apply Qle_bool_iff in H. congruence.
Qed.

Lemma Qabs_cases (q : Q) :
  (0 <= q /\ Qabs q == q)%Q \/ (q <= 0 /\ Qabs q == - q)%Q.
Proof.
  destruct (Qlt_le_dec q 0) as [H | H].
  - right. split; [lra|]. apply Qabs_neg. lra.
  - left. split; [lra|]. now apply Qabs_pos.
Qed.

Ltac finite_cmp :=
  unfold fge, fgt, fz, inject_Z in *; cbn [fabs fneg] in *;
  repeat match goal with
         | |- context [fle (Fin ?a) (Fin ?b)] =>
             destruct (fle_Fin_spec a b)
         | |- context [flt (Fin ?a) (Fin ?b)] =>
             destruct (flt_Fin_spec a b)
         | H : context [fle (Fin ?a) (Fin ?b)] |- _ =>
             destruct (fle_Fin_spec a b)
         | H : context [flt (Fin ?a) (Fin ?b)] |- _ =>
             destruct (flt_Fin_spec a b)
         end.

Ltac abs_cases :=
  repeat match goal with
         | H : context [Qabs ?q] |- _ =>
             let Hs := fresh "Hsign" in
             let Ha := fresh "Habs" in
             destruct (Qabs_cases q) as [[Hs Ha] | [Hs Ha]];
             generalize dependent (Qabs q); intros
         end.

(** A score that passes the entry gate's score test is outside the neutral
    band; a score in a reversal regime is outside it too. *)
Lemma entry_score_not_neutral (score : pyfloat) :
  flt (fabs score) (fz 10) = false -> fle (fabs score) (fz 6) = false.
Proof.
  destruct score as [q| | |]; try reflexivity.
  intros H. finite_cmp; try reflexivity; try discriminate. lra.
Qed.

Lemma reversal_not_neutral (score : pyfloat) :
  fle score (fz (-10)) = true \/ fle (fz 10) score = true ->
  fle (fabs score) (fz 6) = false.
Proof.
  destruct score as [q| | |]; try reflexivity; try (intros [H | H]; discriminate).
  intros H. finite_cmp; try reflexivity; abs_cases; destruct H; try discriminate; lra.
Qed.

(** X1: whatever the position_type string and the numbers, an exit decision
    carries one of the three reasons and a no-exit decision the empty
    reason: the reason is non-empty exactly when should_exit is true. *)
Theorem decide_exit_mds_reason_iff_exit (position_type : string)
        (score slope slow_mom : pyfloat) :
  let d := decide_exit_mds position_type score slope slow_mom in
  (exists r, d = exit_with r) \/ d = no_exit.
Proof.
  cbv zeta. unfold decide_exit_mds, exit_with, no_exit.
  repeat match goal with
         | |- context [if ?c then _ else _] => destruct c
         end;
    first [ right; reflexivity
          | left; exists Reversal; reflexivity
          | left; exists Neutral; reflexivity
          | left; exists MomentumLoss; reflexivity ].
Qed.

Lemma fle_fneg (x y : pyfloat) : fle (fneg x) (fneg y) = fle y x.
Proof.
  destruct x as [a| | |], y as [b| | |]; try reflexivity.
  cbn [fneg]. destruct (fle_Fin_spec (- a) (- b)), (fle_Fin_spec b a);
    try reflexivity; lra.
Qed.

Lemma flt_fneg (x y : pyfloat) : flt (fneg x) (fneg y) = flt y x.
Proof.
  destruct x as [a| | |], y as [b| | |]; try reflexivity.
  cbn [fneg]. destruct (flt_Fin_spec (- a) (- b)), (flt_Fin_spec b a);
    try reflexivity; lra.
Qed.

Lemma fabs_fneg (x : pyfloat) : feq (fabs (fneg x)) (fabs x).
Proof.
  destruct x as [a| | |]; cbn; auto. apply Qabs_opp.
Qed.

(** X2: the PE rules are the CE rules mirrored: the decision for a PE
    position is the decision for a CE position on the negated score, slope
    and slow_mom. *)
Theorem decide_exit_mds_mirror (score slope slow_mom : pyfloat) :
  decide_exit_mds "PE" score slope slow_mom
  = decide_exit_mds "CE" (fneg score) (fneg slope) (fneg slow_mom).
Proof.
  unfold decide_exit_mds, fge, fgt.
  cbn [String.eqb Ascii.eqb Bool.eqb].
  change (fz (-10)) with (fneg (fz 10)).
  change (fz (-1)) with (fneg (fz 1)).
  change (fz (-2)) with (fneg (fz 2)).
  change (fz 12) with (fneg (fz (-12))).
  change (fle (fneg slow_mom) (fz 0)) with (fle (fneg slow_mom) (fneg (fz 0))).
  rewrite !fle_fneg, !flt_fneg.
  rewrite (fle_feq _ _ _ _ (fabs_fneg score) (feq_refl (fz 6))).
  rewrite (fle_feq _ _ _ _ (fabs_fneg slow_mom) (feq_refl (fz 1))).
  reflexivity.
Qed.

Lemma fle_NaN_r (x : pyfloat) : fle x NaN = false.
Proof. destruct x; reflexivity. Qed.

Lemma flt_NaN_r (x : pyfloat) : flt x NaN = false.
Proof. destruct x; reflexivity. Qed.

(** X3: a NaN score or a NaN slow_mom never exits, whatever the position
    type and the other numbers: every branch needs a comparison on score and
    one on slow_mom to hold, and every comparison with NaN is false. *)
Theorem decide_exit_mds_nan_holds (position_type : string)
        (score slope slow_mom : pyfloat) :
  score = NaN \/ slow_mom = NaN ->
  decide_exit_mds position_type score slope slow_mom = no_exit.
Proof.
  intros [-> | ->]; unfold decide_exit_mds, no_exit, fge, fgt;
    cbn [fabs]; rewrite ?fle_NaN_r, ?flt_NaN_r; cbn [fle flt];
    rewrite ?andb_false_r;
    repeat match goal with
           | |- context [if ?c then _ else _] => destruct c
           end; reflexivity.
Qed.

Lemma decide_exit_mds_nan_holds_witness :
  decide_exit_mds "CE" (fz (-50)) (fz (-9)) NaN = no_exit /\
  decide_exit_mds "PE" NaN (fz 9) (fz 5) = no_exit.
Proof.
  split.
  - apply (decide_exit_mds_nan_holds "CE" (fz (-50)) (fz (-9)) NaN).
    right. reflexivity.
  - apply (decide_exit_mds_nan_holds "PE" NaN (fz 9) (fz 5)).
    left. reflexivity.
Defined.

Lemma score_cond_exclusive (side : PositionType) (score slope : pyfloat) :
  score_cond side Reversal score slope = true ->
  score_cond side Neutral score slope = false.
Proof.
  destruct side; cbn [score_cond]; unfold fge; intros H;
    apply reversal_not_neutral; auto.
Qed.

(** X4: for a CE or PE position the first two rules are exact: the decision
    is an exit with the reversal reason exactly when the full reversal
    condition holds, and an exit with the neutral reason exactly when the
    full neutral condition holds (a score in a reversal regime is never in
    the neutral band, so the earlier branch hides nothing of the later). *)
Theorem decide_exit_mds_reversal_neutral_exact (side : PositionType)
        (score slope slow_mom : pyfloat) :
  let d := decide_exit_mds (pt_str side) score slope slow_mom in
  (d = exit_with Reversal
   <-> rule_holds side Reversal score slope slow_mom = true) /\
  (d = exit_with Neutral
   <-> rule_holds side Neutral score slope slow_mom = true).
Proof.
  cbv zeta. rewrite decide_exit_mds_selected.
  pose proof (score_cond_exclusive side score slope) as Hexcl.
  unfold exit_selected, rules, find, rule_holds, exit_with, no_exit.
  destruct (score_cond side Reversal score slope).
  - rewrite (Hexcl eq_refl).
    destruct (slow_cond side Reversal slow_mom); cbn;
      (split; split; intros H; try reflexivity; discriminate H).
  - destruct (score_cond side Neutral score slope);
      [|destruct (score_cond side MomentumLoss score slope)];
      repeat match goal with
             | |- context [if ?c then _ else _] => destruct c
             end; cbn;
      (split; split; intros H; try reflexivity; discriminate H).
Qed.

Lemma momentum_window_CE (score : pyfloat) :
  negb (fle score (fz (-10))) && negb (fle (fabs score) (fz 6))
  && flt score (fz 12)
  = (flt (fz (-10)) score && flt score (fz (-6)))
    || (flt (fz 6) score && flt score (fz 12)).
Proof.
  destruct score as [q| | |]; try reflexivity.
  finite_cmp; cbn; try reflexivity; abs_cases; lra.
Qed.

Lemma momentum_window_PE (score : pyfloat) :
  negb (fle (fz 10) score) && negb (fle (fabs score) (fz 6))
  && flt (fz (-12)) score
  = (flt (fz (-12)) score && flt score (fz (-6)))
    || (flt (fz 6) score && flt score (fz 10)).
Proof.
  destruct score as [q| | |]; try reflexivity.
  finite_cmp; cbn; try reflexivity; abs_cases; lra.
Qed.

(** X5: the momentum-loss exit has a score window.  A CE position exits
    with the momentum-loss reason exactly when slope <= -2, slow_mom <= 0
    and -10 < score < -6 or 6 < score < 12; a PE position exactly when
    slope >= 2, slow_mom >= 0 and -12 < score < -6 or 6 < score < 10. *)
Theorem decide_exit_mds_momentum_window (score slope slow_mom : pyfloat) :
  (decide_exit_mds "CE" score slope slow_mom = exit_with MomentumLoss
   <-> fle slope (fz (-2)) = true /\ fle slow_mom (fz 0) = true /\
       ((flt (fz (-10)) score = true /\ flt score (fz (-6)) = true) \/
        (flt (fz 6) score = true /\ flt score (fz 12) = true))) /\
  (decide_exit_mds "PE" score slope slow_mom = exit_with MomentumLoss
   <-> fle (fz 2) slope = true /\ fle (fz 0) slow_mom = true /\
       ((flt (fz (-12)) score = true /\ flt score (fz (-6)) = true) \/
        (flt (fz 6) score = true /\ flt score (fz 10) = true))).
Proof.
  split.
  - pose proof (momentum_window_CE score) as W.
    unfold decide_exit_mds, exit_with. cbn [String.eqb Ascii.eqb Bool.eqb].
    revert W.
    generalize (fle score (fz (-10))), (fle (fabs score) (fz 6)),
      (flt score (fz 12)), (fle slope (fz (-2))), (fle slow_mom (fz 0)),
      (fle slow_mom (fz (-1))), (fle (fabs slow_mom) (fz 1)),
      (flt (fz (-10)) score), (flt score (fz (-6))), (flt (fz 6) score).
    intros [] [] [] [] [] [] [] [] [] []; cbn [negb andb orb rule_reason];
      intros W; try discriminate W;
      (split; intros H; try reflexivity; try discriminate H;
       intuition congruence).
  - pose proof (momentum_window_PE score) as W.
    unfold decide_exit_mds, exit_with, fge, fgt.
    cbn [String.eqb Ascii.eqb Bool.eqb].
    revert W.
    generalize (fle (fz 10) score), (fle (fabs score) (fz 6)),
      (flt (fz (-12)) score), (fle (fz 2) slope), (fle (fz 0) slow_mom),
      (fle (fz 1) slow_mom), (fle (fabs slow_mom) (fz 1)),
      (flt score (fz 10)), (flt score (fz (-6))), (flt (fz 6) score).
    intros [] [] [] [] [] [] [] [] [] []; cbn [negb andb orb rule_reason];
      intros W; try discriminate W;
      (split; intros H; try reflexivity; try discriminate H;
       intuition congruence).
Qed.

(** ** Further properties of the entry gate *)

Lemma decide_entry_mds_enter_inv (ready is_choppy : bool) (direction : string)
      (score slope : pyfloat) (count needed : Z) :
  EntryDecision.should_enter
    (decide_entry_mds ready is_choppy direction score slope count needed)
  = true ->
  ready = true /\ is_choppy = false /\ direction <> "NONE" /\
  flt (fabs score) (fz 10) = false /\ flt (fabs slope) (fz 1) = false /\
  needed <= count.
Proof.
  unfold decide_entry_mds.
  destruct ready, is_choppy; cbn [negb]; try discriminate.
  destruct (String.eqb_spec direction "NONE"); [discriminate|].
  destruct (flt (fabs score) (fz 10)); [discriminate|].
  destruct (flt (fabs slope) (fz 1)); [discriminate|].
  destruct (Z.ltb_spec count needed); [discriminate|].
  intros _. repeat split; auto.
Qed.

(** X6: entry and neutral exit never agree on a score: when the entry gate
    approves an entry, no position type, slope or slow_mom makes the exit
    function return the neutral exit on the same score (the gate needs
    |score| >= 10 or NaN, the neutral band |score| <= 6). *)
Theorem entry_score_never_neutral_exit
        (ready is_choppy : bool) (direction : string) (score slope : pyfloat)
        (count needed : Z) (position_type : string)
        (slope' slow_mom : pyfloat) :
  EntryDecision.should_enter
    (decide_entry_mds ready is_choppy direction score slope count needed)
  = true ->
  decide_exit_mds position_type score slope' slow_mom <> exit_with Neutral.
Proof.
  intros H. apply decide_entry_mds_enter_inv in H.
  destruct H as (_ & _ & _ & Hsc & _).
  apply entry_score_not_neutral in Hsc.
  unfold decide_exit_mds, exit_with. rewrite Hsc.
  repeat match goal with
         | |- context [if ?c then _ else _] => destruct c
         end; discriminate.
Qed.

Lemma entry_score_never_neutral_exit_witness :
  decide_exit_mds "CE" (fz 10) (fz 0) (fz 0) <> exit_with Neutral.
Proof.
  apply (entry_score_never_neutral_exit true false "CE" (fz 10) (fz 1) 3 3
           "CE" (fz 0) (fz 0)).
  reflexivity.
Defined.

(** X7: an approved entry stays approved, with the same decision, when the
    confirmation count grows or the needed count shrinks. *)
Theorem decide_entry_mds_monotone
        (ready is_choppy : bool) (direction : string) (score slope : pyfloat)
        (count needed count' needed' : Z) :
  EntryDecision.should_enter
    (decide_entry_mds ready is_choppy direction score slope count needed)
  = true ->
  count <= count' -> needed' <= needed ->
  decide_entry_mds ready is_choppy direction score slope count' needed'
  = decide_entry_mds ready is_choppy direction score slope count needed.
Proof.
  intros H Hc Hn. apply decide_entry_mds_enter_inv in H.
  destruct H as (-> & -> & Hd & Hsc & Hsl & Hle).
  unfold decide_entry_mds. cbn [negb].
  apply String.eqb_neq in Hd. rewrite Hd, Hsc, Hsl.
  assert (E1 : (count <? needed) = false) by (apply Z.ltb_ge; lia).
  assert (E2 : (count' <? needed') = false) by (apply Z.ltb_ge; lia).
  now rewrite E1, E2.
Qed.

Lemma decide_entry_mds_monotone_witness :
  decide_entry_mds true false "PE" (fz (-15)) (fz (-2)) 7 1
  = decide_entry_mds true false "PE" (fz (-15)) (fz (-2)) 3 3.
Proof.
  apply (decide_entry_mds_monotone true false "PE" (fz (-15)) (fz (-2))
           3 3 7 1); [reflexivity | lia | lia].
Defined.

(** ** Further properties of the runner *)

(** The confirmation branch is reached when no test fails, which includes
    NaN scores and slopes. *)
Lemma decide_entry_passing (direction : option string)
      (score slope : option pyfloat) (cn : Z) (r : Runner) :
  normalize direction <> "NONE" ->
  flt (fabs (coerce_num score)) (fz 10) = false ->
  flt (fabs (coerce_num slope)) (fz 1) = false ->
  ScoreMdsRunner.decide_entry true false direction score slope cn r
  = (Returned
       (if next_count r (normalize direction) <? cn
        then StrategyEntryDecision.mk false "" "arming"
               (next_count r (normalize direction)) cn
        else StrategyEntryDecision.mk true
               (if String.eqb (normalize direction) "CE" then "CE" else "PE")
               "" (next_count r (normalize direction)) cn),
     mkRunner (Some (normalize direction))
       (next_count r (normalize direction))).
Proof.
  intros Hdir Hsc Hsl.
  set (dir := normalize direction) in *.
  destruct (abs_lt_or_zero score (fz 10)) as (sc & Esc & Hsc').
  destruct (abs_lt_or_zero slope (fz 1)) as (sl & Esl & Hsl').
  rewrite Hsc in Hsc'. rewrite Hsl in Hsl'.
  apply String.eqb_neq in Hdir.
  assert (Hgate : forall n,
             decide_entry_mds (bool_ true) (bool_ false) dir sc sl n cn
             = if n <? cn then EntryDecision.mk false "" "arming"
               else EntryDecision.mk true
                      (if String.eqb dir "CE" then "CE" else "PE") "").
  { intros n. unfold decide_entry_mds, bool_. cbn [negb].
    rewrite Hdir, Hsc', Hsl'. reflexivity. }
  unfold ScoreMdsRunner.decide_entry.
  rewrite str_or_NONE. fold dir. cbn [negb]. rewrite Hdir.
  unfold bind at 1. unfold lift at 1. rewrite Esc, Hsc'.
  unfold bind at 1. unfold lift at 1. rewrite Esl, Hsl'.
  unfold bind at 1. unfold get_last_direction at 1.
  rewrite !int_or_zero. unfold next_count.
  destruct (opt_str_eqb (_last_direction r) dir) eqn:E.
  - apply opt_str_eqb_true in E.
    unfold bind, lift, ret, get_confirm_count, set_confirm_count.
    cbn [_last_direction _confirm_count].
    rewrite Hgate, E, !str_or_same.
    destruct (_confirm_count r + 1 <? cn); reflexivity.
  - unfold bind, lift, ret, get_confirm_count, set_confirm_count,
      set_last_direction.
    cbn [_last_direction _confirm_count].
    rewrite Hgate, !str_or_same.
    destruct (1 <? cn); reflexivity.
Qed.

(** The three ways a [decide_entry] call ends. *)
Lemma decide_entry_cases (ready is_choppy : bool) (direction : option string)
      (score slope : option pyfloat) (cn : Z) (r : Runner) :
  let dir := normalize direction in
  let call :=
    ScoreMdsRunner.decide_entry ready is_choppy direction score slope cn r in
  ((ready = false \/ is_choppy = true) /\
   call = (Returned (StrategyEntryDecision.mk false ""
                       (if negb ready then "mds_not_ready" else "mds_choppy")
                       0 0), r)) \/
  (ready = true /\ is_choppy = false /\
   (dir = "NONE" \/ flt (fabs (coerce_num score)) (fz 10) = true \/
    flt (fabs (coerce_num slope)) (fz 1) = true) /\
   call = (Returned (StrategyEntryDecision.mk false ""
                       (reset_reason dir (coerce_num score)) 0 cn),
           mkRunner (Some dir) 0)) \/
  (ready = true /\ is_choppy = false /\ dir <> "NONE" /\
   flt (fabs (coerce_num score)) (fz 10) = false /\
   flt (fabs (coerce_num slope)) (fz 1) = false /\
   call = (Returned
             (if next_count r dir <? cn
              then StrategyEntryDecision.mk false "" "arming"
                     (next_count r dir) cn
              else StrategyEntryDecision.mk true
                     (if String.eqb dir "CE" then "CE" else "PE") ""
                     (next_count r dir) cn),
           mkRunner (Some dir) (next_count r dir))).
Proof.
  cbv zeta.
  destruct ready; [destruct is_choppy|].
  - left. split; [now right|]. apply decide_entry_early. now right.
  - destruct (String.eqb_spec (normalize direction) "NONE") as [Ed | Ed].
    { right; left. repeat split; auto. apply decide_entry_reset. auto. }
    destruct (flt (fabs (coerce_num score)) (fz 10)) eqn:Esc.
    { right; left. repeat split; auto. apply decide_entry_reset. auto. }
    destruct (flt (fabs (coerce_num slope)) (fz 1)) eqn:Esl.
    { right; left. repeat split; auto. apply decide_entry_reset. auto. }
    right; right. repeat split; auto. now apply decide_entry_passing.
  - left. split; [now left|]. apply decide_entry_early. now left.
Qed.

Section RunnerExtras.
Local Open Scope runner_scope.
Import ScoreMdsRunner.

(** X8: decide_entry returns a decision for every state and every input,
    absent direction, score and slope included (it never raises); unless the
    call is skipped as not ready or choppy, the decision reports the Runner's
    confirm_count after the call, echoes confirm_needed, and last_direction
    becomes the normalized direction. *)
Theorem decide_entry_returns_and_reports
        (ready is_choppy : bool) (direction : option string)
        (score slope : option pyfloat) (confirm_needed : Z) (r : Runner) :
  exists d r',
    decide_entry ready is_choppy direction score slope confirm_needed r
    = (Returned d, r') /\
    (ready = true -> is_choppy = false ->
     StrategyEntryDecision.confirm_count d = _confirm_count r' /\
     StrategyEntryDecision.confirm_needed d = confirm_needed /\
     _last_direction r' = Some (normalize direction)).
Proof.
  destruct (decide_entry_cases ready is_choppy direction score slope
              confirm_needed r)
    as [[Hskip E] | [(Hr & Hc & _ & E) | (Hr & Hc & _ & _ & _ & E)]];
    cbv zeta in E; rewrite E; eexists; eexists; (split; [reflexivity|]).
  - intros -> ->. destruct Hskip; discriminate.
  - intros _ _. repeat split.
  - intros _ _.
    destruct (next_count r (normalize direction) <? confirm_needed);
      repeat split.
Qed.

Lemma decide_entry_returns_and_reports_witness :
  exists d r',
    decide_entry true false None None None 2 (mkRunner (Some "CE") 4)
    = (Returned d, r') /\
    (true = true -> false = false ->
     StrategyEntryDecision.confirm_count d = _confirm_count r' /\
     StrategyEntryDecision.confirm_needed d = 2 /\
     _last_direction r' = Some (normalize None)).
Proof.
  exact (decide_entry_returns_and_reports true false None None None 2
           (mkRunner (Some "CE") 4)).
Defined.

(** X9: the Runner approves an entry exactly when the call is ready and not
    choppy, the normalized direction is not NONE, neither |score| < 10 nor
    |slope| < 1 holds, and the count this call reaches (the previous count
    plus one in the same direction, else one) is at least confirm_needed;
    the approved option_type is then CE for direction CE and PE otherwise. *)
Theorem decide_entry_enters_iff
        (ready is_choppy : bool) (direction : option string)
        (score slope : option pyfloat) (confirm_needed : Z) (r : Runner) :
  exists d r',
    decide_entry ready is_choppy direction score slope confirm_needed r
    = (Returned d, r') /\
    (StrategyEntryDecision.should_enter d = true <->
     ready = true /\ is_choppy = false /\ normalize direction <> "NONE" /\
     flt (fabs (coerce_num score)) (fz 10) = false /\
     flt (fabs (coerce_num slope)) (fz 1) = false /\
     confirm_needed <= next_count r (normalize direction)) /\
    (StrategyEntryDecision.should_enter d = true ->
     StrategyEntryDecision.reason d = "" /\
     StrategyEntryDecision.option_type d
     = if String.eqb (normalize direction) "CE" then "CE" else "PE").
Proof.
  destruct (decide_entry_cases ready is_choppy direction score slope
              confirm_needed r)
    as [[Hskip E] | [(Hr & Hc & Hdis & E) | (Hr & Hc & Hd & Hsc & Hsl & E)]];
    cbv zeta in E; rewrite E; eexists; eexists; (split; [reflexivity|]).
  - split; [split|]; cbn; try discriminate.
    intros (-> & -> & _). destruct Hskip; discriminate.
  - split; [split|]; cbn; try discriminate.
    intros (_ & _ & Hd & Hsc & Hsl & _).
    destruct Hdis as [H | [H | H]]; congruence.
  - destruct (Z.ltb_spec (next_count r (normalize direction)) confirm_needed);
      (split; [split|]); cbn; try discriminate.
    + intros (_ & _ & _ & _ & _ & Hle). lia.
    + intros _. repeat split; auto.
    + intros _. reflexivity.
    + intros _. split; reflexivity.
Qed.

Lemma decide_entry_enters_iff_witness :
  exists d r',
    decide_entry true false (Some "PE") (Some NInf) (Some (fz 1)) 2
      (mkRunner (Some "PE") 1)
    = (Returned d, r') /\
    (StrategyEntryDecision.should_enter d = true <->
     true = true /\ false = false /\ normalize (Some "PE") <> "NONE" /\
     flt (fabs (coerce_num (Some NInf))) (fz 10) = false /\
     flt (fabs (coerce_num (Some (fz 1)))) (fz 1) = false /\
     2 <= next_count (mkRunner (Some "PE") 1) (normalize (Some "PE"))) /\
    (StrategyEntryDecision.should_enter d = true ->
     StrategyEntryDecision.reason d = "" /\
     StrategyEntryDecision.option_type d
     = if String.eqb (normalize (Some "PE")) "CE" then "CE" else "PE").
Proof.
  exact (decide_entry_enters_iff true false (Some "PE") (Some NInf)
           (Some (fz 1)) 2 (mkRunner (Some "PE") 1)).
Defined.

(** X10: a NaN score is not rejected by the score test and a NaN slope not
    by the slope test (abs(NaN) < 10.0 is false): a ready, not choppy call
    with a direction other than NONE and NaN for both counts as a
    confirmation and is approved once the count suffices. *)
Theorem decide_entry_nan_confirms
        (direction : option string) (confirm_needed : Z) (r : Runner) :
  normalize direction <> "NONE" ->
  let count := next_count r (normalize direction) in
  exists d,
    decide_entry true false direction (Some NaN) (Some NaN) confirm_needed r
    = (Returned d, mkRunner (Some (normalize direction)) count) /\
    StrategyEntryDecision.confirm_count d = count /\
    (confirm_needed <= count -> StrategyEntryDecision.should_enter d = true).
Proof.
  intros Hd count.
  rewrite (decide_entry_passing direction (Some NaN) (Some NaN)
             confirm_needed r Hd eq_refl eq_refl).
  fold count. eexists. split; [reflexivity|].
  destruct (Z.ltb_spec count confirm_needed); cbn; split; auto. lia.
Qed.

Lemma decide_entry_nan_confirms_witness :
  exists d,
    decide_entry true false (Some "CE") (Some NaN) (Some NaN) 1 init
    = (Returned d, mkRunner (Some (normalize (Some "CE"))) 1) /\
    StrategyEntryDecision.confirm_count d = 1 /\
    (1 <= 1 -> StrategyEntryDecision.should_enter d = true).
Proof.
  apply (decide_entry_nan_confirms (Some "CE") 1 init). discriminate.
Defined.

(** X11: an absent (or zero) score or slope disqualifies a ready, not choppy
    call: no entry, confirm_count reported and stored as 0, last_direction
    the normalized direction. *)
Theorem decide_entry_absent_number_resets
        (direction : option string) (score slope : option pyfloat)
        (confirm_needed : Z) (r : Runner) :
  score = None \/ slope = None ->
  exists d,
    decide_entry true false direction score slope confirm_needed r
    = (Returned d, mkRunner (Some (normalize direction)) 0) /\
    StrategyEntryDecision.should_enter d = false /\
    StrategyEntryDecision.confirm_count d = 0.
Proof.
  intros H. eexists. split.
  - apply decide_entry_reset. destruct H as [-> | ->]; auto.
  - split; reflexivity.
Qed.

Lemma decide_entry_absent_number_resets_witness :
  exists d,
    decide_entry true false (Some "CE") (Some (fz 40)) None 1
      (mkRunner (Some "CE") 6)
    = (Returned d, mkRunner (Some (normalize (Some "CE"))) 0) /\
    StrategyEntryDecision.should_enter d = false /\
    StrategyEntryDecision.confirm_count d = 0.
Proof.
  apply (decide_entry_absent_number_resets (Some "CE") (Some (fz 40)) None 1
           (mkRunner (Some "CE") 6)).
  right. reflexivity.
Defined.
End RunnerExtras.

Section RunnerSequences.
Local Open Scope runner_scope.
Import ScoreMdsRunner.

(** X12: an absent direction, an empty direction and the direction "NONE"
    are one and the same input: the three calls return the same decision
    and leave the same state, and none of them approves an entry. *)
Theorem decide_entry_direction_absent_is_NONE
        (ready is_choppy : bool) (score slope : option pyfloat)
        (confirm_needed : Z) (r : Runner) :
  let call direction :=
    decide_entry ready is_choppy direction score slope confirm_needed r in
  call None = call (Some "NONE") /\
  call (Some "") = call (Some "NONE") /\
  exists d r',
    call (Some "NONE") = (Returned d, r') /\
    StrategyEntryDecision.should_enter d = false.
Proof.
  cbv zeta. split; [reflexivity|]. split; [reflexivity|].
  destruct (decide_entry_cases ready is_choppy (Some "NONE") score slope
              confirm_needed r)
    as [[_ E] | [(_ & _ & _ & E) | (_ & _ & Hd & _)]].
  - cbv zeta in E. rewrite E. eexists; eexists. split; reflexivity.
  - cbv zeta in E. rewrite E. eexists; eexists. split; reflexivity.
  - exfalso. apply Hd. reflexivity.
Qed.

Lemma next_count_bounds (r : Runner) (dir : string) :
  0 <= _confirm_count r ->
  1 <= next_count r dir <= _confirm_count r + 1.
Proof.
  unfold next_count. destruct (opt_str_eqb (_last_direction r) dir); lia.
Qed.

Lemma normalize_not_empty (direction : option string) :
  normalize direction <> "".
Proof.
  destruct direction as [[|c s]|]; cbn; discriminate.
Qed.

Lemma call_entry_state (c : EntryCall) (r : Runner) :
  exists d,
    call_entry c r = (Returned d, snd (call_entry c r)) /\
    (snd (call_entry c r) = r \/
     snd (call_entry c r) = mkRunner (Some (normalize (c_direction c))) 0 \/
     (normalize (c_direction c) <> "NONE" /\
      snd (call_entry c r)
      = mkRunner (Some (normalize (c_direction c)))
          (next_count r (normalize (c_direction c))) /\
      StrategyEntryDecision.confirm_count d
      = next_count r (normalize (c_direction c)))) /\
    (StrategyEntryDecision.should_enter d = true ->
     c_needed c <= StrategyEntryDecision.confirm_count d /\
     StrategyEntryDecision.confirm_count d
     = next_count r (normalize (c_direction c))).
Proof.
  unfold call_entry.
  destruct (decide_entry_cases (c_ready c) (c_is_choppy c) (c_direction c)
              (c_score c) (c_slope c) (c_needed c) r)
    as [[_ E] | [(_ & _ & _ & E) | (_ & _ & Hd & _ & _ & E)]];
    cbv zeta in E; rewrite E; cbn [snd].
  - eexists. split; [reflexivity|]. split; [now left|]. discriminate.
  - eexists. split; [reflexivity|]. split; [right; now left|]. discriminate.
  - destruct (Z.ltb_spec (next_count r (normalize (c_direction c)))
                (c_needed c)).
    + eexists. split; [reflexivity|].
      split; [right; right; repeat split; auto|]. discriminate.
    + eexists. split; [reflexivity|].
      split; [right; right; repeat split; auto|].
      intros _. cbn. split; [lia | reflexivity].
Qed.

Lemma decide_exit_keeps_state (position_type : option string)
      (score slope slow_mom : option pyfloat) (r : Runner) :
  snd (decide_exit position_type score slope slow_mom r) = r.
Proof.
  destruct (float_or_zero score) as (sc & Esc & _).
  destruct (float_or_zero slope) as (sl & Esl & _).
  destruct (float_or_zero slow_mom) as (sm & Esm & _).
  unfold decide_exit, bind, lift, ret.
  now rewrite Esc, Esl, Esm.
Qed.

Lemma run_op_inv (o : Op) (r : Runner) : runner_inv r -> runner_inv (run_op o r).
Proof.
  unfold runner_inv. intros (Hpos & Hnone & HNONE & Hempty).
  destruct o as [| | pt sc sl sm | c]; cbn [run_op].
  - cbn. split; [lia|]. split; [reflexivity|]. split; [reflexivity|].
    discriminate.
  - cbn. split; [lia|]. split; [reflexivity|]. split; [reflexivity|].
    exact Hempty.
  - rewrite decide_exit_keeps_state. auto.
  - destruct (call_entry_state c r) as (d & _ & [E | [E | (Hd & E & _)]] & _);
      rewrite E.
    + auto.
    + cbn. split; [lia|]. split; [reflexivity|]. split; [reflexivity|].
      intros H. injection H as H. now apply normalize_not_empty in H.
    + pose proof (next_count_bounds r (normalize (c_direction c)) Hpos).
      cbn. split; [lia|]. split; [discriminate|]. split.
      * intros H'. injection H' as H'. contradiction.
      * intros H'. injection H' as H'. now apply normalize_not_empty in H'.
Qed.

(** X13: the four operations keep the Runner's fields well-formed: from a
    state where confirm_count >= 0, confirm_count is 0 whenever
    last_direction is unset or "NONE", and last_direction is not the empty
    string, every sequence of reset, on_entry_attempted, decide_exit and
    decide_entry calls, whatever their arguments, ends in such a state. *)
Theorem runner_invariant (os : list Op) (r : Runner) :
  runner_inv r -> runner_inv (run_ops os r).
Proof.
  unfold run_ops. revert r.
  induction os as [| o os IH]; intros r Hr; cbn [fold_left].
  - exact Hr.
  - apply IH, run_op_inv, Hr.
Qed.

Lemma runner_invariant_witness :
  runner_inv
    (run_ops [OpDecideEntry (mkCall true false (Some "CE") (Some (fz 11))
                               (Some (fz 2)) 2);
              OpDecideExit (Some "CE") None None None;
              OpEntryAttempted;
              OpDecideEntry (mkCall true false None None None 2);
              OpReset]
       init).
Proof.
  apply (runner_invariant _ init).
  unfold runner_inv. cbn. split; [lia|]. split; [reflexivity|].
  split; discriminate.
Defined.

Lemma call_entries_bound (cs : list EntryCall) (r : Runner) (c0 : Z) :
  0 <= c0 -> _confirm_count r <= c0 ->
  exists ds r',
    call_entries cs r = (Returned ds, r') /\
    length ds = length cs /\
    forall k c d,
      nth_error cs k = Some c -> nth_error ds k = Some d ->
      StrategyEntryDecision.should_enter d = true ->
      c_needed c <= c0 + Z.of_nat k + 1.
Proof.
  revert r c0. induction cs as [| c cs IH]; intros r c0 Hc0 Hr.
  - exists [], r. split; [reflexivity|]. split; [reflexivity|].
    intros [|k] c d H; discriminate H.
  - destruct (call_entry_state c r) as (d & Ecall & Hst & Henter).
    assert (Hnext : next_count r (normalize (c_direction c)) <= c0 + 1).
    { unfold next_count.
      destruct (opt_str_eqb (_last_direction r) (normalize (c_direction c)));
        lia. }
    assert (Hr1 : _confirm_count (snd (call_entry c r)) <= c0 + 1).
    { destruct Hst as [E | [E | (_ & E & _)]]; rewrite E; cbn; lia. }
    destruct (IH (snd (call_entry c r)) (c0 + 1) ltac:(lia) Hr1)
      as (ds & r' & Erest & Hlen & Hall).
    exists (d :: ds), r'. cbn [call_entries].
    unfold bind at 1. rewrite Ecall.
    unfold bind at 1. rewrite Erest.
    split; [reflexivity|]. split; [cbn [length]; now rewrite Hlen|].
    intros [|k] c' d' Hc Hd He; cbn [nth_error] in Hc, Hd.
    + injection Hc as <-. injection Hd as <-.
      destruct (Henter He) as (Hle & Ecount). lia.
    + specialize (Hall k c' d' Hc Hd He). lia.
Qed.

(** X14: confirmation cannot be rushed.  From a state with confirm_count 0
    (as left by reset or on_entry_attempted), whatever the arguments of the
    following decide_entry calls, every call returns, and the k-th call
    (counting from 1) approves an entry only if its confirm_needed is at
    most k. *)
Theorem entry_needs_that_many_calls (cs : list EntryCall) (r : Runner) :
  _confirm_count r = 0 ->
  exists ds r',
    call_entries cs r = (Returned ds, r') /\
    length ds = length cs /\
    forall k c d,
      nth_error cs k = Some c -> nth_error ds k = Some d ->
      StrategyEntryDecision.should_enter d = true ->
      c_needed c <= Z.of_nat k + 1.
Proof.
  intros Hr.
  destruct (call_entries_bound cs r 0 ltac:(lia) ltac:(lia))
    as (ds & r' & E & Hlen & Hall).
  exists ds, r'. split; [exact E|]. split; [exact Hlen|].
  intros k c d Hc Hd He. specialize (Hall k c d Hc Hd He). lia.
Qed.

Lemma entry_needs_that_many_calls_witness :
  exists ds r',
    call_entries [mkCall true false (Some "CE") (Some (fz 11)) (Some (fz 2)) 2;
                  mkCall true false (Some "CE") (Some (fz 12)) (Some (fz 3)) 2]
      (mkRunner (Some "CE") 0)
    = (Returned ds, r') /\
    length ds = 2%nat /\
    forall k c d,
      nth_error
        [mkCall true false (Some "CE") (Some (fz 11)) (Some (fz 2)) 2;
         mkCall true false (Some "CE") (Some (fz 12)) (Some (fz 3)) 2] k
      = Some c ->
      nth_error ds k = Some d ->
      StrategyEntryDecision.should_enter d = true ->
      c_needed c <= Z.of_nat k + 1.
Proof.
  apply (entry_needs_that_many_calls
           [mkCall true false (Some "CE") (Some (fz 11)) (Some (fz 2)) 2;
            mkCall true false (Some "CE") (Some (fz 12)) (Some (fz 3)) 2]
           (mkRunner (Some "CE") 0)).
  reflexivity.
Defined.

(** X15: a disqualifying observation on a ready, not choppy call (direction
    NONE, |score| < 10 or |slope| < 1) restarts the confirmation: the next
    call that passes the tests reports confirm_count = 1, in whatever
    direction and from whatever state the two calls started, and is approved
    only with confirm_needed <= 1. *)
Theorem disqualified_then_passing_counts_one
        (r : Runner) (dir1 dir2 : option string)
        (sc1 sl1 sc2 sl2 : option pyfloat) (n1 n2 : Z) :
  normalize dir1 = "NONE" \/
  flt (fabs (coerce_num sc1)) (fz 10) = true \/
  flt (fabs (coerce_num sl1)) (fz 1) = true ->
  normalize dir2 <> "NONE" ->
  flt (fabs (coerce_num sc2)) (fz 10) = false ->
  flt (fabs (coerce_num sl2)) (fz 1) = false ->
  exists d1 d2,
    (d1 <- decide_entry true false dir1 sc1 sl1 n1 ;;
     d2 <- decide_entry true false dir2 sc2 sl2 n2 ;;
     ret (d1, d2)) r
    = (Returned (d1, d2), mkRunner (Some (normalize dir2)) 1) /\
    StrategyEntryDecision.confirm_count d2 = 1 /\
    (StrategyEntryDecision.should_enter d2 = true <-> n2 <= 1).
Proof.
  intros Hdis Hd Hsc Hsl.
  unfold bind at 1. rewrite (decide_entry_reset dir1 sc1 sl1 n1 r Hdis).
  unfold bind at 1. rewrite (decide_entry_passing dir2 sc2 sl2 n2 _ Hd Hsc Hsl).
  assert (E : next_count (mkRunner (Some (normalize dir1)) 0) (normalize dir2)
              = 1).
  { unfold next_count.
    destruct (opt_str_eqb _ _); reflexivity. }
  rewrite E. eexists; eexists. split; [reflexivity|].
  destruct (Z.ltb_spec 1 n2); cbn; (split; [reflexivity|]);
    split; intros H'; try reflexivity; try discriminate; lia.
Qed.

Lemma disqualified_then_passing_counts_one_witness :
  exists d1 d2,
    (d1 <- decide_entry true false (Some "CE") (Some (fz 9)) (Some (fz 3)) 3 ;;
     d2 <- decide_entry true false (Some "CE") (Some (fz 10)) (Some (fz 3)) 3 ;;
     ret (d1, d2)) (mkRunner (Some "CE") 2)
    = (Returned (d1, d2), mkRunner (Some (normalize (Some "CE"))) 1) /\
    StrategyEntryDecision.confirm_count d2 = 1 /\
    (StrategyEntryDecision.should_enter d2 = true <-> 3 <= 1).
Proof.
  apply (disqualified_then_passing_counts_one (mkRunner (Some "CE") 2)
           (Some "CE") (Some "CE") (Some (fz 9)) (Some (fz 3))
           (Some (fz 10)) (Some (fz 3)) 3 3).
  - right; left. reflexivity.
  - discriminate.
  - reflexivity.
  - reflexivity.
Defined.

(** X16: what absent inputs do to the Runner's decide_exit.  With no
    position_type there is never an exit; with a CE or PE position and
    both score and slow_mom absent (read as 0.0) the neutral rule fires,
    whatever the slope: missing numbers close the position. *)
Theorem decide_exit_absent_inputs
        (r : Runner) (side : PositionType)
        (score slope slow_mom : option pyfloat) :
  decide_exit None score slope slow_mom r
  = (Returned (StrategyExitDecision.mk false ""), r) /\
  decide_exit (Some (pt_str side)) None slope None r
  = (Returned (StrategyExitDecision.mk true "MDS Neutral (slow confirm)"), r).
Proof.
  destruct (float_or_zero score) as (sc & Esc & _).
  destruct (float_or_zero slope) as (sl & Esl & _).
  destruct (float_or_zero slow_mom) as (sm & Esm & _).
  unfold decide_exit, bind, lift, ret.
  rewrite Esc, Esl, Esm. split.
  - reflexivity.
  - destruct side; reflexivity.
Qed.
End RunnerSequences.

(** ** Strategy runtime *)

Section RuntimeProperties.
Context {T Snap S : Type}.
Variable total_seconds : T -> T -> pyfloat.

(** X17: a closed candle is not processed, the result is False and the bot
    is left untouched, whatever process would do, when the context has no
    snapshot, or when the cooldown is enforced and a last exit is recorded
    less than candle_interval_seconds before the candle. *)
Theorem on_closed_candle_blocked
        (process : Snap -> pyfloat -> Bot T S -> outcome bool * Bot T S)
        (bot : Bot T S) (ctx : ClosedCandleContext.t T Snap) :
  ClosedCandleContext.mds_snapshot ctx = None \/
  (ClosedCandleContext.enforce_recent_exit_cooldown ctx = true /\
   exists last,
     last_exit_candle_time bot = Some last /\
     flt (total_seconds (ClosedCandleContext.current_candle_time ctx) last)
         (fz (ClosedCandleContext.candle_interval_seconds ctx)) = true) ->
  on_closed_candle total_seconds process ScoreMdsRuntime bot ctx
  = (Returned false, bot).
Proof.
  unfold on_closed_candle, score_mds_on_closed_candle,
    _recent_exit_cooldown_active, bool_.
  intros [-> | (-> & last & -> & ->)]; [reflexivity|].
  destruct (ClosedCandleContext.mds_snapshot ctx); reflexivity.
Qed.


(** X19: the cooldown follows an exit.  After a call that returned True for
    a candle, a later call with the cooldown enforced, for a candle less
    than its candle_interval_seconds after the first, returns False and
    leaves the bot untouched, whatever the two processes do. *)
Theorem on_closed_candle_cooldown_after_exit
        (process process' : Snap -> pyfloat -> Bot T S -> outcome bool * Bot T S)
        (bot bot1 : Bot T S) (ctx ctx' : ClosedCandleContext.t T Snap) :
  on_closed_candle total_seconds process ScoreMdsRuntime bot ctx
  = (Returned true, bot1) ->
  ClosedCandleContext.enforce_recent_exit_cooldown ctx' = true ->
  flt (total_seconds (ClosedCandleContext.current_candle_time ctx')
         (ClosedCandleContext.current_candle_time ctx))
      (fz (ClosedCandleContext.candle_interval_seconds ctx')) = true ->
  on_closed_candle total_seconds process' ScoreMdsRuntime bot1 ctx'
  = (Returned false, bot1).
Proof.
  intros Hfirst Henf Hnear.
  assert (Hlast : last_exit_candle_time bot1
                  = Some (ClosedCandleContext.current_candle_time ctx)).
  { revert Hfirst.
    unfold on_closed_candle, score_mds_on_closed_candle, bool_.
    destruct (ClosedCandleContext.mds_snapshot ctx); [|discriminate].
    destruct (_ && _); [discriminate|].
    destruct (process _ _ _) as [[[|] | e] b]; try discriminate.
    intros H. injection H as <-. reflexivity. }
  unfold on_closed_candle, score_mds_on_closed_candle,
    _recent_exit_cooldown_active, bool_.
  rewrite Henf, Hlast, Hnear.
  destruct (ClosedCandleContext.mds_snapshot ctx'); reflexivity.
Qed.
End RuntimeProperties.

Lemma on_closed_candle_blocked_witness :
  let total_seconds (a b : Z) := fz (a - b) in
  let process (_ : unit) (_ : pyfloat) (bot : Bot Z unit) :=
    (Returned true, bot) in
  on_closed_candle total_seconds process ScoreMdsRuntime
    (mkBot (Some 600) tt)
    (ClosedCandleContext.mk 630 60 (fz 100) true (Some tt) None false (fz 0))
  = (Returned false, mkBot (Some 600) tt).
Proof.
  cbv zeta.
  apply (on_closed_candle_blocked (fun a b : Z => fz (a - b))).
  right. split; [reflexivity|]. exists 600. split; reflexivity.
Defined.


Lemma on_closed_candle_cooldown_after_exit_witness :
  let total_seconds (a b : Z) := fz (a - b) in
  let process (_ : unit) (_ : pyfloat) (bot : Bot Z unit) :=
    (Returned true, bot) in
  on_closed_candle total_seconds process ScoreMdsRuntime
    (mkBot (Some 660) tt)
    (ClosedCandleContext.mk 700 60 (fz 100) true (Some tt) None false (fz 0))
  = (Returned false, mkBot (Some 660) tt).
Proof.
  cbv zeta.
  apply (on_closed_candle_cooldown_after_exit (fun a b : Z => fz (a - b))
           (fun (_ : unit) (_ : pyfloat) (bot : Bot Z unit) =>
              (Returned true, bot))
           (fun (_ : unit) (_ : pyfloat) (bot : Bot Z unit) =>
              (Returned true, bot))
           (mkBot None tt) (mkBot (Some 660) tt)
           (ClosedCandleContext.mk 660 60 (fz 100) true (Some tt) None false
              (fz 0))
           (ClosedCandleContext.mk 700 60 (fz 100) true (Some tt) None false
              (fz 0))); reflexivity.
Defined.
